(** * Call-transcript analyzer: a shallow embedding of [app.py]

    The model:
    - [PyText]: Python's [str] as a sequence of Unicode code points, with
      the string methods the application calls;
    - [PyData]: the values [json.loads] produces, their truthiness and
      [str()], exceptions, and what the interpreter provides;
    - [Effects]: the world a request handler runs in (the CSV file,
      written as UTF-8, the inference service, the session, which has
      no secret key, standard output) and a small state-and-exception
      monad over it;
    - [Csv]: the writer and the reader of Python's [csv] module for the
      default (excel) dialect;
    - [Flask]: requests and responses;
    - [App]: the functions and route handlers of [app.py], in the order
      of the source;
    - [Sample]: one concrete runtime, clients and requests, to run the
      application on examples;
    - [Spec]: the vocabulary the properties are stated in;
    - [Startup]: the creation of the module-level client;
    - [Cases]: more vocabulary and sample data.

    The properties:
    - [TextFacts], [Normalizer]: the sentiment normalizer;
    - [Pipeline]: [analyze_transcript] and its failure sentinel;
    - [Store]: what [save_to_csv] leaves in the file;
    - [Handlers]: the route handlers;
    - [Uploads]: uploaded JSON documents;
    - [ReadBack]: the history view of a saved file;
    - [Runs]: two complete runs;
    - [PipelineRuns], [NormalizerShape], [StoreRuns], [PageRuns],
      [EndToEnd], [HandlerRuns], [ApiRuns], [UploadRuns],
      [StartupFacts]: further properties of the same functions, of the
      history view and of the start-up code.

    Outside the model: the web server around the handlers, the HTML
    templates, failures of the file system, the encoding of standard
    output, and exceptions that are not instances of [Exception]. *)

From Stdlib Require Import List NArith ZArith Bool String Ascii Lia PrimFloat.
From Stdlib Require Import DecimalString.
Import ListNotations.

Set Implicit Arguments.
Set Warnings "-inexact-float,-register-all".

(* ================================================================== *)
(** ** Python text                                                     *)
(* ================================================================== *)

Module PyText.

Local Open Scope N_scope.

(** A character is a Unicode code point; a [str] is a sequence of them. *)
Definition char := N.
Definition pystr := list char.

(** An ASCII literal of the source as a [str]. *)
Definition py (s : string) : pystr :=
  map N_of_ascii (list_ascii_of_string s).

Definition DQUOTE : char := 34.   (* the double quote *)
Definition SQUOTE : char := 39.   (* the apostrophe *)
Definition LF : char := 10.       (* newline *)
Definition CR : char := 13.       (* carriage return *)
Definition SPACE : char := 32.
Definition COLON : char := 58.
Definition PERIOD : char := 46.
Definition COMMA : char := 44.

(** [str.isspace] on one character: the code points Python treats as
    whitespace (and that [str.strip()] removes). *)
Definition isspace (c : char) : bool :=
  ((9 <=? c) && (c <=? 13)) || ((28 <=? c) && (c <=? 32))
  || (c =? 133) || (c =? 160) || (c =? 5760)
  || ((8192 <=? c) && (c <=? 8202))
  || (c =? 8232) || (c =? 8233) || (c =? 8239) || (c =? 8287)
  || (c =? 12288).

(** [s.lstrip()], [s.rstrip()], [s.strip()]. *)
Fixpoint lstrip (s : pystr) : pystr :=
  match s with
  | [] => []
  | c :: s' => if isspace c then lstrip s' else s
  end.

Fixpoint rstrip (s : pystr) : pystr :=
  match s with
  | [] => []
  | c :: s' =>
      match rstrip s' with
      | [] => if isspace c then [] else [c]
      | r => c :: r
      end
  end.

Definition strip (s : pystr) : pystr := rstrip (lstrip s).

(** [s.replace(old, new)] for a one-character [old], the only form the
    source uses. *)
Definition replace (old : char) (new : pystr) (s : pystr) : pystr :=
  flat_map (fun c => if c =? old then new else [c]) s.

(** [c in s] for a one-character [c]. *)
Definition contains (c : char) (s : pystr) : bool :=
  existsb (N.eqb c) s.

(** [s.split(sep)] for a one-character [sep]; the result is never empty. *)
Fixpoint split (sep : char) (s : pystr) : list pystr :=
  match s with
  | [] => [[]]
  | c :: s' =>
      if c =? sep then [] :: split sep s'
      else match split sep s' with
           | p :: ps => (c :: p) :: ps
           | [] => [[c]]
           end
  end.

(** [parts[0]] and [parts[-1]] on the result of a [split]. *)
Definition first_part (parts : list pystr) : pystr := hd [] parts.
Definition last_part (parts : list pystr) : pystr := last parts [].

(** [s.startswith(prefix)] and [s.endswith(suffix)]. *)
Fixpoint startswith (s prefix : pystr) : bool :=
  match prefix, s with
  | [], _ => true
  | _ :: _, [] => false
  | a :: p', b :: s' => (a =? b) && startswith s' p'
  end.

Definition endswith (s suffix : pystr) : bool :=
  startswith (rev s) (rev suffix).

(** [sep.join(items)]. *)
Fixpoint join (sep : pystr) (items : list pystr) : pystr :=
  match items with
  | [] => []
  | [x] => x
  | x :: rest => x ++ sep ++ join sep rest
  end.

(** [sub in s] for strings: [sub] occurs as a contiguous run in [s]. *)
Fixpoint substring_in (sub s : pystr) : bool :=
  startswith s sub ||
  match s with
  | [] => false
  | _ :: s' => substring_in sub s'
  end.

(** [s[:n]]. *)
Definition slice_to (n : nat) (s : pystr) : pystr := firstn n s.

Definition pystr_eqb (a b : pystr) : bool :=
  if list_eq_dec N.eq_dec a b then true else false.

(** The code points UTF-8 does not encode: the surrogates, U+D800 to
    U+DFFF. [utf8_encodable s] tells that [s.encode('utf-8')] succeeds. *)
Definition is_surrogate (c : char) : bool := (55296 <=? c) && (c <=? 57343).

Definition utf8_encodable (s : pystr) : bool :=
  forallb (fun c => negb (is_surrogate c)) s.

(** The number of characters at the start of [s] that satisfy [p]. *)
Fixpoint prefix_length (p : char -> bool) (s : pystr) : nat :=
  match s with
  | [] => 0
  | c :: s' => if p c then S (prefix_length p s') else 0
  end.

(** Four lower-case hexadecimal digits, as [%04x] prints a code point
    below 65536. *)
Definition hex_digit (n : N) : char := if n <? 10 then 48 + n else 87 + n.

Definition hex4 (c : char) : pystr :=
  [hex_digit (c / 4096 mod 16); hex_digit (c / 256 mod 16);
   hex_digit (c / 16 mod 16); hex_digit (c mod 16)].

End PyText.
Export PyText.

(* ================================================================== *)
(** ** Python data                                                     *)
(* ================================================================== *)

Module PyData.

(** The values [json.loads] builds. A [dict] keeps its insertion order
    and has string keys; [int] is unbounded. *)
Inductive pyvalue : Type :=
| PyNone
| PyBool (b : bool)
| PyInt (z : Z)
| PyFloat (f : float)
| PyStr (s : pystr)
| PyList (items : list pyvalue)
| PyDict (items : list (pystr * pyvalue)).

(** [bool(v)], as tested by [if not v]. *)
Definition truthy (v : pyvalue) : bool :=
  match v with
  | PyNone => false
  | PyBool b => b
  | PyInt z => negb (z =? 0)%Z
  | PyFloat f => negb (PrimFloat.eqb f 0%float)
  | PyStr s => match s with [] => false | _ => true end
  | PyList items => match items with [] => false | _ => true end
  | PyDict items => match items with [] => false | _ => true end
  end.

(** [type(v).__name__], as it appears in error messages. *)
Definition type_name (v : pyvalue) : pystr :=
  match v with
  | PyNone => py "NoneType"
  | PyBool _ => py "bool"
  | PyInt _ => py "int"
  | PyFloat _ => py "float"
  | PyStr _ => py "str"
  | PyList _ => py "list"
  | PyDict _ => py "dict"
  end.

Definition is_str (v : pyvalue) : bool :=
  match v with PyStr _ => true | _ => false end.

(** [key in d] and [d[key]] on the items of a [dict]. *)
Definition dict_has (key : pystr) (d : list (pystr * pyvalue)) : bool :=
  existsb (fun kv => pystr_eqb (fst kv) key) d.

Fixpoint dict_get (key : pystr) (d : list (pystr * pyvalue)) : option pyvalue :=
  match d with
  | [] => None
  | (k, v) :: d' => if pystr_eqb k key then Some v else dict_get key d'
  end.

(** [str(z)] for an [int]. *)
Definition str_of_int (z : Z) : pystr :=
  py (NilZero.string_of_int (Z.to_int z)).

(** Exceptions. Every exception of the model is an instance of Python's
    [Exception]; [exn_str e] is [str(e)]. *)
Inductive exn_class : Type :=
| AttributeError
| TypeError
| IndexError
| KeyError
| FileNotFoundError
| JSONDecodeError
| CsvError
| RuntimeError
| UnicodeEncodeError
| OtherException (name : pystr).

Record exn : Type := Exn { exn_class_of : exn_class; exn_str : pystr }.

Definition is_JSONDecodeError (e : exn) : bool :=
  match exn_class_of e with JSONDecodeError => true | _ => false end.

(** The error of [text.encode('utf-8')] for a [text] that holds a
    surrogate: it names the first run of surrogates, by its character
    when the run is one character long and by its two ends otherwise. *)
Definition unicode_encode_error (text : pystr) : exn :=
  let start := prefix_length (fun c => negb (is_surrogate c)) text in
  let run := prefix_length is_surrogate (skipn start text) in
  Exn UnicodeEncodeError
      (py "'utf-8' codec can't encode "
       ++ (if Nat.eqb run 1
           then py "character '\u" ++ hex4 (nth start text 0%N)
                ++ py "' in position " ++ str_of_int (Z.of_nat start)
           else py "characters in position " ++ str_of_int (Z.of_nat start)
                ++ py "-" ++ str_of_int (Z.of_nat (start + run - 1)))
       ++ py ": surrogates not allowed").

(** The error of storing into the session of an application that has
    no secret key. *)
Definition session_unavailable : exn :=
  Exn RuntimeError
      (py "The session is unavailable because no secret key was set.  Set the secret_key on the application to something unique and secret.").

(** The result of evaluating a Python expression. *)
Inductive outcome (A : Type) : Type :=
| Returns (a : A)
| Raises (e : exn).
Arguments Raises {A} e.

(** What the interpreter and its [json] module provide and the model
    does not define: the JSON parser, and the [repr] of a string and of
    a float (used by [str()] of containers and of floats). *)
Record PyRuntime : Type := {
  json_loads : pystr -> outcome pyvalue;
  repr_str : pystr -> pystr;
  repr_float : float -> pystr
}.

Section Str.
Variable rt : PyRuntime.

(** [repr(v)]. *)
Fixpoint py_repr (v : pyvalue) : pystr :=
  match v with
  | PyNone => py "None"
  | PyBool true => py "True"
  | PyBool false => py "False"
  | PyInt z => str_of_int z
  | PyFloat f => repr_float rt f
  | PyStr s => repr_str rt s
  | PyList items =>
      py "[" ++ join (py ", ") (map py_repr items) ++ py "]"
  | PyDict items =>
      py "{"
      ++ join (py ", ")
           (map (fun kv => match kv with
                           | (k, x) => repr_str rt k ++ py ": " ++ py_repr x
                           end) items)
      ++ py "}"
  end.

(** [str(v)], also what an f-string interpolates. *)
Definition py_str (v : pyvalue) : pystr :=
  match v with
  | PyStr s => s
  | _ => py_repr v
  end.

End Str.

(** [v.strip()]: only a [str] has the method. *)
Definition no_attribute (v : pyvalue) (attr : pystr) : exn :=
  Exn AttributeError
      (py "'" ++ type_name v ++ py "' object has no attribute '" ++ attr ++ py "'").

Definition method_strip (v : pyvalue) : outcome pystr :=
  match v with
  | PyStr s => Returns (strip s)
  | _ => Raises (no_attribute v (py "strip"))
  end.

(** [key in v] for a string [key]: membership in a dict's keys, in a
    list's elements, as a substring of a string; other values are not
    iterable. *)
Definition contains_key (key : pystr) (v : pyvalue) : outcome bool :=
  match v with
  | PyDict items => Returns (dict_has key items)
  | PyList items =>
      Returns (existsb (fun x => match x with
                                 | PyStr s => pystr_eqb s key
                                 | _ => false
                                 end) items)
  | PyStr s => Returns (substring_in key s)
  | _ =>
      Raises (Exn TypeError
                  (py "argument of type '" ++ type_name v ++ py "' is not iterable"))
  end.

(** [v[key]] for a string [key]. *)
Definition getitem (key : pystr) (v : pyvalue) : outcome pyvalue :=
  match v with
  | PyDict items =>
      match dict_get key items with
      | Some x => Returns x
      | None => Raises (Exn KeyError (py "'" ++ key ++ py "'"))
      end
  | PyList _ =>
      Raises (Exn TypeError (py "list indices must be integers or slices, not str"))
  | PyStr _ =>
      Raises (Exn TypeError (py "string indices must be integers, not 'str'"))
  | _ =>
      Raises (Exn TypeError
                  (py "'" ++ type_name v ++ py "' object is not subscriptable"))
  end.

End PyData.
Export PyData.

(* ================================================================== *)
(** ** The world of a request, and a monad over it                     *)
(* ================================================================== *)

Module Effects.

(** A call of [client.chat.completions.create]: the messages as
    (role, content) pairs, the model name and the temperature. *)
Record ChatRequest : Type := {
  messages : list (pystr * pystr);
  model : pystr;
  temperature : float
}.

(** The completion object, reduced to what the application reads:
    [choices[i].message.content], which may be [None]. *)
Record ChatCompletion : Type := {
  choices : list (option pystr)
}.

(** The inference service is opaque: its answer may depend on the
    request and on every request sent before it; it returns a
    completion or raises. *)
Record Groq : Type := {
  chat_completions_create :
    list ChatRequest -> ChatRequest -> outcome ChatCompletion
}.

(** The state a handler can observe or change.
    - [csv_file]: the content of [call_analysis.csv], the only path the
      application opens; [None] when the file does not exist. The path
      is taken to be writable; the text is kept as code points, all of
      which UTF-8 can encode when the application wrote them;
    - [chat_log]: the requests sent to the inference service so far;
    - [flashes]: the (message, category) pairs the session holds;
    - [stdout]: the lines printed so far;
    - [save_log]: the calls of [save_to_csv] so far, with their
      arguments (a trace; the program never reads it). *)
Record World : Type := {
  csv_file : option pystr;
  chat_log : list ChatRequest;
  flashes : list (pystr * pystr);
  stdout : list pystr;
  save_log : list (pyvalue * pystr * pystr)
}.

(** A computation changes the world and returns or raises; the world
    changes made before a [raise] persist. *)
Definition M (A : Type) : Type := World -> outcome A * World.

Definition ret {A} (a : A) : M A := fun w => (Returns a, w).

Definition raise {A} (e : exn) : M A := fun w => (Raises e, w).

Definition bind {A B} (m : M A) (k : A -> M B) : M B :=
  fun w =>
    match m w with
    | (Returns a, w') => k a w'
    | (Raises e, w') => (Raises e, w')
    end.

Definition lift {A} (o : outcome A) : M A := fun w => (o, w).

(** [try: body  except Exception as e: handler e]. *)
Definition try_except {A} (body : M A) (handler : exn -> M A) : M A :=
  fun w =>
    match body w with
    | (Returns a, w') => (Returns a, w')
    | (Raises e, w') => handler e w'
    end.

(** [try: body  except C as e: handler e] for one exception class,
    given by its test. *)
Definition try_except_only {A} (catches : exn -> bool)
    (body : M A) (handler : exn -> M A) : M A :=
  fun w =>
    match body w with
    | (Returns a, w') => (Returns a, w')
    | (Raises e, w') => if catches e then handler e w' else (Raises e, w')
    end.

Declare Scope py_scope.
Delimit Scope py_scope with py.
Notation "x <- m ;; k" := (bind m (fun x => k))
  (at level 61, m at next level, right associativity) : py_scope.
Notation "m ;; k" := (bind m (fun _ => k))
  (at level 61, right associativity) : py_scope.
Notation "' p <- m ;; k" := (bind m (fun x => match x with p => k end))
  (at level 61, p pattern, m at next level, right associativity) : py_scope.

(** [print(line)]. *)
Definition print (line : pystr) : M unit :=
  fun w =>
    (Returns tt,
     {| csv_file := csv_file w; chat_log := chat_log w; flashes := flashes w;
        stdout := stdout w ++ [line]; save_log := save_log w |}).

(** [flash(message, category)]. The application is created without a
    secret key (lines 12-13 set none, and nothing sets one later), so
    its session is Flask's null session: [flash] reads the messages of
    the session, and raises when it stores the list with the new
    message. No message is ever recorded. *)
Definition flash (message category : pystr) : M unit :=
  raise session_unavailable.

(** [os.path.isfile('call_analysis.csv')]. *)
Definition isfile : M bool :=
  fun w => (Returns (match csv_file w with Some _ => true | None => false end), w).

(** [open('call_analysis.csv', 'w', newline='', encoding='utf-8')]:
    the file is created or truncated. *)
Definition open_w : M unit :=
  fun w =>
    (Returns tt,
     {| csv_file := Some []; chat_log := chat_log w; flashes := flashes w;
        stdout := stdout w; save_log := save_log w |}).

(** [csvfile.write(text)] on the file opened for writing: the text is
    encoded to UTF-8 as it is written. A text that holds a surrogate
    raises [UnicodeEncodeError] and none of it is written; what was
    written before stays in the file, which the [with] statement
    closes. *)
Definition file_write (text : pystr) : M unit :=
  fun w =>
    if utf8_encodable text
    then (Returns tt,
          {| csv_file := Some (match csv_file w with Some old => old | None => [] end ++ text);
             chat_log := chat_log w; flashes := flashes w;
             stdout := stdout w; save_log := save_log w |})
    else (Raises (unicode_encode_error text), w).

(** [open('call_analysis.csv', 'r').read()]. *)
Definition file_read : M pystr :=
  fun w =>
    match csv_file w with
    | Some text => (Returns text, w)
    | None =>
        (Raises (Exn FileNotFoundError
                     (py "[Errno 2] No such file or directory: 'call_analysis.csv'")), w)
    end.

(** [client.chat.completions.create(...)]: the request is sent (and
    logged), the service answers. *)
Definition create (client : Groq) (request : ChatRequest) : M ChatCompletion :=
  fun w =>
    (chat_completions_create client (chat_log w) request,
     {| csv_file := csv_file w; chat_log := chat_log w ++ [request];
        flashes := flashes w; stdout := stdout w; save_log := save_log w |}).

(** The entry of [save_to_csv] into the trace of its calls. *)
Definition log_save (transcript : pyvalue) (summary sentiment : pystr) : M unit :=
  fun w =>
    (Returns tt,
     {| csv_file := csv_file w; chat_log := chat_log w; flashes := flashes w;
        stdout := stdout w;
        save_log := save_log w ++ [(transcript, summary, sentiment)] |}).

End Effects.
Export Effects.
Open Scope py_scope.

(* ================================================================== *)
(** ** Python's [csv] module, excel dialect                            *)
(* ================================================================== *)

Module Csv.

Local Open Scope N_scope.

(** The dialect in force everywhere in the application: delimiter [,],
    quote character the double quote, [doublequote] on, no escape
    character, line terminator CR LF, [QUOTE_MINIMAL], not strict. *)
Definition lineterminator : pystr := [CR; LF].

(** *** Writer *)

(** A field is quoted when it holds the delimiter, the quote character
    or a line-terminator character. *)
Definition special (c : char) : bool :=
  (c =? COMMA) || (c =? DQUOTE) || (c =? CR) || (c =? LF).

Definition needs_quotes (field : pystr) : bool := existsb special field.

Definition write_field (field : pystr) : pystr :=
  if needs_quotes field
  then [DQUOTE] ++ replace DQUOTE [DQUOTE; DQUOTE] field ++ [DQUOTE]
  else field.

(** [writer.writerow(row)]: the text written. A record made of one
    empty field is written as an empty quoted field. *)
Definition writerow_text (row : list pystr) : pystr :=
  match row with
  | [single] =>
      match single with
      | [] => [DQUOTE; DQUOTE] ++ lineterminator
      | _ => write_field single ++ lineterminator
      end
  | _ => join [COMMA] (map write_field row) ++ lineterminator
  end.

Fixpoint assoc (key : pystr) (d : list (pystr * pystr)) : option pystr :=
  match d with
  | [] => None
  | (k, v) :: d' => if pystr_eqb k key then Some v else assoc key d'
  end.

(** [DictWriter._dict_to_list]: a key outside [fieldnames] raises
    [ValueError]; a missing key is written as the empty string. *)
Definition dict_to_list (fieldnames : list pystr) (rowdict : list (pystr * pystr))
  : outcome (list pystr) :=
  if forallb (fun kv => existsb (pystr_eqb (fst kv)) fieldnames) rowdict
  then Returns (map (fun key => match assoc key rowdict with
                                | Some v => v
                                | None => []
                                end) fieldnames)
  else Raises (Exn (OtherException (py "ValueError"))
                   (py "dict contains fields not in fieldnames")).

(** [DictWriter(csvfile, fieldnames).writerow(rowdict)] and
    [.writeheader()]. *)
Definition DictWriter_writerow (fieldnames : list pystr)
    (rowdict : list (pystr * pystr)) : M unit :=
  row <- lift (dict_to_list fieldnames rowdict) ;;
  file_write (writerow_text row).

Definition DictWriter_writeheader (fieldnames : list pystr) : M unit :=
  DictWriter_writerow fieldnames (combine fieldnames fieldnames).

(** *** Reader *)

Inductive ParserState : Type :=
| START_RECORD
| START_FIELD
| IN_FIELD
| IN_QUOTED_FIELD
| QUOTE_IN_QUOTED_FIELD
| EAT_CRNL.

Record Reader : Type := {
  state : ParserState;
  field : pystr;          (* the field being read *)
  fields : list pystr     (* the fields of the record read so far *)
}.

Definition reader_reset : Reader :=
  {| state := START_RECORD; field := []; fields := [] |}.

(** [csv.field_size_limit()]. *)
Definition field_limit : N := 131072.

Definition csv_error (msg : pystr) : exn := Exn CsvError msg.

Definition parse_add_char (r : Reader) (c : char) (next : ParserState)
  : outcome Reader :=
  if field_limit <=? N.of_nat (List.length (field r))
  then Raises (csv_error (py "field larger than field limit (131072)"))
  else Returns {| state := next; field := field r ++ [c]; fields := fields r |}.

Definition parse_save_field (r : Reader) (next : ParserState) : Reader :=
  {| state := next; field := []; fields := fields r ++ [field r] |}.

Definition set_state (r : Reader) (next : ParserState) : Reader :=
  {| state := next; field := field r; fields := fields r |}.

(** What the parser is fed: a character of the line, or the end of the
    line. *)
Inductive input : Type :=
| Char (c : char)
| EOL.

Definition is_newline (i : input) : bool :=
  match i with
  | Char c => (c =? LF) || (c =? CR)
  | EOL => false
  end.

Definition after_line_end (i : input) : ParserState :=
  match i with EOL => START_RECORD | Char _ => EAT_CRNL end.

Definition start_field (r : Reader) (i : input) : outcome Reader :=
  match i with
  | EOL => Returns (parse_save_field r START_RECORD)
  | Char c =>
      if (c =? LF) || (c =? CR) then Returns (parse_save_field r EAT_CRNL)
      else if c =? DQUOTE then Returns (set_state r IN_QUOTED_FIELD)
      else if c =? COMMA then Returns (parse_save_field r START_FIELD)
      else parse_add_char r c IN_FIELD
  end.

(** [parse_process_char]. *)
Definition parse_process_char (r : Reader) (i : input) : outcome Reader :=
  match state r with
  | START_RECORD =>
      match i with
      | EOL => Returns r
      | Char c =>
          if (c =? LF) || (c =? CR) then Returns (set_state r EAT_CRNL)
          else start_field r i
      end
  | START_FIELD => start_field r i
  | IN_FIELD =>
      match i with
      | EOL => Returns (parse_save_field r START_RECORD)
      | Char c =>
          if (c =? LF) || (c =? CR) then Returns (parse_save_field r EAT_CRNL)
          else if c =? COMMA then Returns (parse_save_field r START_FIELD)
          else parse_add_char r c IN_FIELD
      end
  | IN_QUOTED_FIELD =>
      match i with
      | EOL => Returns r
      | Char c =>
          if c =? DQUOTE then Returns (set_state r QUOTE_IN_QUOTED_FIELD)
          else parse_add_char r c IN_QUOTED_FIELD
      end
  | QUOTE_IN_QUOTED_FIELD =>
      match i with
      | EOL => Returns (parse_save_field r START_RECORD)
      | Char c =>
          if c =? DQUOTE then parse_add_char r c IN_QUOTED_FIELD
          else if c =? COMMA then Returns (parse_save_field r START_FIELD)
          else if (c =? LF) || (c =? CR) then Returns (parse_save_field r EAT_CRNL)
          else parse_add_char r c IN_FIELD
      end
  | EAT_CRNL =>
      match i with
      | EOL => Returns (set_state r START_RECORD)
      | Char c =>
          if (c =? LF) || (c =? CR) then Returns r
          else Raises (csv_error
                 (py "new-line character seen in unquoted field - do you need to open the file with newline=''?"))
      end
  end.

(** One line of the file: its characters, then the end of the line. *)
Fixpoint process_line (r : Reader) (line : pystr) : outcome Reader :=
  match line with
  | [] => parse_process_char r EOL
  | c :: rest =>
      match parse_process_char r (Char c) with
      | Returns r' => process_line r' rest
      | Raises e => Raises e
      end
  end.

Definition is_START_RECORD (s : ParserState) : bool :=
  match s with START_RECORD => true | _ => false end.

Definition is_IN_QUOTED_FIELD (s : ParserState) : bool :=
  match s with IN_QUOTED_FIELD => true | _ => false end.

(** [list(csv.reader(lines))]: a record ends when a line leaves the
    parser at the start of a record; at the end of the input a pending
    field closes the last record. *)
Fixpoint read_rows (r : Reader) (lines : list pystr)
  : outcome (list (list pystr)) :=
  match lines with
  | [] =>
      match field r with
      | [] =>
          if is_IN_QUOTED_FIELD (state r)
          then Returns [fields (parse_save_field r START_RECORD)]
          else Returns []
      | _ => Returns [fields (parse_save_field r START_RECORD)]
      end
  | line :: rest =>
      match process_line r line with
      | Raises e => Raises e
      | Returns r' =>
          if is_START_RECORD (state r')
          then match read_rows reader_reset rest with
               | Returns rows => Returns (fields r' :: rows)
               | Raises e => Raises e
               end
          else read_rows r' rest
      end
  end.

(** Reading a text file opened without [newline=]: CR LF and a lone CR
    become LF, and the file iterates line by line, each line keeping
    its LF. *)
Fixpoint universal_newlines (s : pystr) : pystr :=
  match s with
  | [] => []
  | c :: s' =>
      if c =? CR
      then LF :: match s' with
                 | d :: s'' =>
                     if d =? LF then universal_newlines s''
                     else universal_newlines s'
                 | [] => []
                 end
      else c :: universal_newlines s'
  end.

Fixpoint file_lines (s : pystr) : list pystr :=
  match s with
  | [] => []
  | c :: s' =>
      if c =? LF then [c] :: file_lines s'
      else match file_lines s' with
           | [] => [[c]]
           | l :: ls => (c :: l) :: ls
           end
  end.

(** *** DictReader *)

(** A value of a row dict: a field, [None] (the [restval] of a short
    row) or the list of surplus fields (under the [restkey]). *)
Inductive cell : Type :=
| CellStr (s : pystr)
| CellNone
| CellRest (rest : list pystr).

(** A row dict; the key [None] is the [restkey]. *)
Definition DictRow : Type := list (option pystr * cell).

Definition key_eqb (a b : option pystr) : bool :=
  match a, b with
  | Some x, Some y => pystr_eqb x y
  | None, None => true
  | _, _ => false
  end.

(** [d[key] = value]. *)
Fixpoint dict_set (key : option pystr) (value : cell) (d : DictRow) : DictRow :=
  match d with
  | [] => [(key, value)]
  | (k, v) :: d' =>
      if key_eqb k key then (k, value) :: d'
      else (k, v) :: dict_set key value d'
  end.

(** [DictReader.__next__] on one non-empty row. *)
Definition make_row (fieldnames row : list pystr) : DictRow :=
  let d := fold_left (fun d kv => dict_set (Some (fst kv)) (CellStr (snd kv)) d)
                     (combine fieldnames row) [] in
  let lf := List.length fieldnames in
  let lr := List.length row in
  if (lf <? lr)%nat then dict_set None (CellRest (skipn lf row)) d
  else fold_left (fun d key => dict_set (Some key) CellNone d)
                 (skipn lr fieldnames) d.

Definition is_nil {A} (l : list A) : bool :=
  match l with [] => true | _ => false end.

(** [list(csv.DictReader(csvfile))] from the rows of the reader: the
    first row gives the field names, empty rows are skipped. *)
Definition dict_rows (rows : list (list pystr)) : list DictRow :=
  match rows with
  | [] => []
  | fieldnames :: rest =>
      map (make_row fieldnames) (filter (fun row => negb (is_nil row)) rest)
  end.

Definition DictReader (text : pystr) : outcome (list DictRow) :=
  match read_rows reader_reset (file_lines (universal_newlines text)) with
  | Returns rows => Returns (dict_rows rows)
  | Raises e => Raises e
  end.

End Csv.
Export Csv.

(* ================================================================== *)
(** ** The application                                                 *)
(* ================================================================== *)

Module Flask.

(** An uploaded file: its name, and the outcome of
    [file.read().decode('utf-8')] (the text, or the decoding error). *)
Record FileStorage : Type := {
  filename : pystr;
  read_decode : outcome pystr
}.

(** The request, as the handlers read it: [request.files],
    [request.form], and the outcome of [request.get_json()]. *)
Record HttpRequest : Type := {
  files : list (pystr * FileStorage);
  form : list (pystr * pystr);
  get_json : outcome pyvalue
}.

Inductive Endpoint : Type := index_view | history_view.

(** [url_for(endpoint)] for the routes of the application. *)
Definition url_for (e : Endpoint) : pystr :=
  match e with
  | index_view => py "/"
  | history_view => py "/history"
  end.

(** What a template is rendered with. *)
Inductive TemplateContext : Type :=
| NoContext
| ResultContext (transcript : pyvalue) (summary sentiment : pystr)
| RecordsContext (records : list DictRow).

(** What a handler returns. *)
Inductive Response : Type :=
| render_template (template : pystr) (context : TemplateContext)
| redirect (location : pystr)
| jsonify (body : list (pystr * pyvalue)) (status : Z)
| send_file_response (path mimetype : pystr) (as_attachment : bool)
    (download_name : pystr) (body : pystr).

Fixpoint lookup {A} (key : pystr) (d : list (pystr * A)) : option A :=
  match d with
  | [] => None
  | (k, v) :: d' => if pystr_eqb k key then Some v else lookup key d'
  end.

(** [send_file('call_analysis.csv', ...)]. *)
Definition send_file (path mimetype : pystr) (as_attachment : bool)
    (download_name : pystr) : M Response :=
  body <- file_read ;;
  ret (send_file_response path mimetype as_attachment download_name body).

End Flask.
Export Flask.

Module App.

Section Application.

(** The interpreter's services and the module-level [client], which is
    [None] when the API key is missing or the client cannot be built. *)
Variable rt : PyRuntime.
Variable client : option Groq.

Definition lines (l : list pystr) : pystr := join [LF] l.

(** The two f-string prompts of [analyze_transcript]; [transcript] is
    the text interpolated for the transcript. *)
Definition summary_prompt (transcript : pystr) : pystr :=
  lines [
    [];
    py "        You are an expert customer service analyst. Summarize the following customer service conversation in exactly 2-3 sentences. Focus on the main issue, actions taken, and outcome.";
    [];
    py "        Customer Service Conversation:";
    py "        " ++ transcript;
    [];
    py "        Summary (2-3 sentences only):";
    py "        "
  ].

Definition sentiment_prompt (transcript : pystr) : pystr :=
  lines [
    [];
    py "        You are an expert sentiment analyst. Analyze the CUSTOMER's overall sentiment throughout this conversation and provide a descriptive sentiment label.";
    [];
    py "        Customer Service Conversation:";
    py "        " ++ transcript;
    [];
    py "        Instructions:";
    py "        - Focus ONLY on the customer's sentiment, not the agent's";
    py "        - Consider the entire conversation, not just the beginning";
    py "        - Provide a descriptive sentiment that captures the customer's emotional state";
    [];
    py "        Choose from these specific sentiment categories:";
    py "        - " ++ [DQUOTE] ++ py "Satisfied and Positive" ++ [DQUOTE] ++ py " - Issue resolved, customer happy/grateful";
    py "        - " ++ [DQUOTE] ++ py "Frustrated and Negative" ++ [DQUOTE] ++ py " - Customer angry, unresolved issues";
    py "        - " ++ [DQUOTE] ++ py "Confused and Negative" ++ [DQUOTE] ++ py " - Customer lost, getting poor help";
    py "        - " ++ [DQUOTE] ++ py "Disappointed and Negative" ++ [DQUOTE] ++ py " - Customer let down by service";
    py "        - " ++ [DQUOTE] ++ py "Impatient and Negative" ++ [DQUOTE] ++ py " - Customer annoyed by delays/process";
    py "        - " ++ [DQUOTE] ++ py "Relieved and Positive" ++ [DQUOTE] ++ py " - Problem solved after difficulty";
    py "        - " ++ [DQUOTE] ++ py "Grateful and Positive" ++ [DQUOTE] ++ py " - Customer appreciative of help";
    py "        - " ++ [DQUOTE] ++ py "Neutral and Cautious" ++ [DQUOTE] ++ py " - Customer uncertain about outcome";
    py "        - " ++ [DQUOTE] ++ py "Mixed and Neutral" ++ [DQUOTE] ++ py " - Customer has both positive and negative feelings";
    [];
    py "        Customer Sentiment (respond with exactly one phrase from above):";
    py "        "
  ].

(** The arguments of both calls of [client.chat.completions.create]:
    one user message, the model [llama-3.1-8b-instant], a temperature. *)
Definition user_request (prompt : pystr) (temp : float) : ChatRequest :=
  {| messages := [(py "user", prompt)];
     model := py "llama-3.1-8b-instant";
     temperature := temp |}.

(** The clean-up of the sentiment completion, lines 92-106 of
    [analyze_transcript]: the source does it inline; the steps are
    collected here under one name, in the order of the source. *)
Definition clean_sentiment (sentiment : pystr) : pystr :=
  (* line 92: both quote characters are replaced by the empty string,
     then .strip() *)
  let sentiment_clean := strip (replace SQUOTE [] (replace DQUOTE [] sentiment)) in
  (* if '\n' in sentiment_clean: ... split('\n')[0].strip() *)
  let sentiment_clean :=
    if contains LF sentiment_clean
    then strip (first_part (split LF sentiment_clean))
    else sentiment_clean in
  (* if ':' in sentiment_clean: ... split(':')[-1].strip() *)
  let sentiment_clean :=
    if contains COLON sentiment_clean
    then strip (last_part (split COLON sentiment_clean))
    else sentiment_clean in
  (* sentiment_parts = sentiment_clean.split('.') *)
  let sentiment_parts := split PERIOD sentiment_clean in
  (* if len(sentiment_parts) > 1: sentiment_clean = sentiment_parts[0].strip() *)
  if (1 <? List.length sentiment_parts)%nat
  then strip (first_part sentiment_parts)
  else sentiment_clean.

(** [response.choices[0].message.content.strip()]: an empty [choices]
    raises [IndexError], a [None] content [AttributeError]. *)
Definition first_content_stripped (response : ChatCompletion) : M pystr :=
  match choices response with
  | [] => raise (Exn IndexError (py "list index out of range"))
  | None :: _ => raise (no_attribute PyNone (py "strip"))
  | Some content :: _ => ret (strip content)
  end.

Definition not_initialized : pystr := py "Error: Groq client not initialized".

(** [analyze_transcript(transcript)], lines 29-115. *)
Definition analyze_transcript (transcript : pyvalue) : M (pystr * pystr) :=
  try_except
    (match client with
     | None =>
         print not_initialized ;;
         ret (not_initialized, not_initialized)
     | Some groq =>
         print (py "Starting transcript analysis...") ;;
         print (py "Making summary API call...") ;;
         summary_response <-
           create groq (user_request (summary_prompt (py_str rt transcript)) 0.3) ;;
         summary <- first_content_stripped summary_response ;;
         print (py "Summary generated: " ++ slice_to 100 summary ++ py "...") ;;
         print (py "Making sentiment API call...") ;;
         sentiment_response <-
           create groq (user_request (sentiment_prompt (py_str rt transcript)) 0.1) ;;
         sentiment <- first_content_stripped sentiment_response ;;
         let sentiment_clean := clean_sentiment sentiment in
         print (py "Sentiment analyzed: '" ++ sentiment ++ py "' -> cleaned: '"
                ++ sentiment_clean ++ py "'") ;;
         ret (summary, sentiment_clean)
     end)
    (fun e =>
       print (py "Error in analysis: " ++ exn_str e) ;;
       ret (py "Error generating summary: " ++ exn_str e,
            py "Error analyzing sentiment: " ++ exn_str e)).

Definition fieldnames : list pystr :=
  [py "Transcript"; py "Summary"; py "Sentiment"].

(** The cleaning of one field in [save_to_csv] (lines 121-123):
    newlines and carriage returns become spaces, double quotes are
    removed, the result is stripped. *)
Definition clean_field (s : pystr) : pystr :=
  strip (replace DQUOTE [] (replace CR [SPACE] (replace LF [SPACE] s))).

(** [transcript.replace(...)]: only a [str] has the method. *)
Definition method_replace_target (v : pyvalue) : M pystr :=
  match v with
  | PyStr s => ret s
  | _ => raise (no_attribute v (py "replace"))
  end.

(** [save_to_csv(transcript, summary, sentiment)], lines 117-140. The
    callers pass the summary and the sentiment [analyze_transcript]
    returned, which are strings; the transcript is whatever the handler
    extracted. *)
Definition save_to_csv (transcript : pyvalue) (summary sentiment : pystr) : M unit :=
  log_save transcript summary sentiment ;;
  transcript_text <- method_replace_target transcript ;;
  let clean_transcript := clean_field transcript_text in
  let clean_summary := clean_field summary in
  let clean_sentiment := clean_field sentiment in
  open_w ;;
  DictWriter_writeheader fieldnames ;;
  DictWriter_writerow fieldnames
    [(py "Transcript", clean_transcript);
     (py "Summary", clean_summary);
     (py "Sentiment", clean_sentiment)] ;;
  print (py "Fresh CSV created with data: " ++ slice_to 50 clean_transcript
         ++ py "... | " ++ slice_to 50 clean_summary ++ py "... | " ++ clean_sentiment).

(** [index()]. *)
Definition index : M Response :=
  ret (render_template (py "index.html") NoContext).

(** [parse_json_transcript(json_content)], lines 146-166; Python's
    [None] result is [PyNone]. *)
Definition parse_json_transcript (json_content : pystr) : M pyvalue :=
  try_except_only is_JSONDecodeError
    (data <- lift (json_loads rt json_content) ;;
     match data with
     | PyDict d =>
         if dict_has (py "transcript") d then lift (getitem (py "transcript") data)
         else if dict_has (py "conversation") d then lift (getitem (py "conversation") data)
         else if dict_has (py "dialogue") d then lift (getitem (py "dialogue") data)
         else if dict_has (py "text") d then lift (getitem (py "text") data)
         else ret (PyStr (py_str rt data))
     | PyList items =>
         ret (PyStr (join [SPACE] (map (py_str rt) items)))
     | _ => ret (PyStr (py_str rt data))
     end)
    (fun _ => ret PyNone).

Definition error : pystr := py "error".

(** [analyze()], the handler of POST /analyze, lines 168-211 (the route
    accepts POST only, so the test of the method always holds). *)
Definition analyze (request : HttpRequest) : M Response :=
  let finish (transcript : pyvalue) : M Response :=
    if negb (truthy transcript) then
      flash (py "Please enter a transcript or upload a JSON file to analyze.") error ;;
      ret (redirect (url_for index_view))
    else
      '(summary, sentiment) <- analyze_transcript transcript ;;
      (if negb (startswith summary (py "Error") || startswith sentiment (py "Error"))
       then save_to_csv transcript summary sentiment
       else print (py "Skipping CSV save due to analysis errors")) ;;
      ret (render_template (py "result.html")
             (ResultContext transcript summary sentiment))
  in
  match lookup (py "json_file") (files request) with
  | Some file =>
      if negb (is_nil (filename file)) && endswith (filename file) (py ".json")
      then
        (* the try block either returns a response or leaves the
           transcript for the rest of the handler *)
        r <- try_except
               (json_content <- lift (read_decode file) ;;
                transcript <- parse_json_transcript json_content ;;
                if negb (truthy transcript) then
                  flash (py "Invalid JSON format. Please check your file.") error ;;
                  ret (inl (redirect (url_for index_view)))
                else ret (inr transcript))
               (fun e =>
                  flash (py "Error reading JSON file: " ++ exn_str e) error ;;
                  ret (inl (redirect (url_for index_view)))) ;;
        match r with
        | inl response => ret response
        | inr transcript => finish transcript
        end
      else
        flash (py "Please upload a valid JSON file.") error ;;
        ret (redirect (url_for index_view))
  | None =>
      finish (PyStr (strip (match lookup (py "transcript") (form request) with
                            | Some text => text
                            | None => []
                            end)))
  end.

(** [api_analyze()], the handler of POST /api/analyze, lines 213-238. *)
Definition api_analyze (request : HttpRequest) : M Response :=
  data <- lift (get_json request) ;;
  (* not data or 'transcript' not in data *)
  missing <- (if negb (truthy data) then ret true
              else present <- lift (contains_key (py "transcript") data) ;;
                   ret (negb present)) ;;
  if (missing : bool) then
    ret (jsonify [(error, PyStr (py "No transcript provided"))] 400)
  else
    value <- lift (getitem (py "transcript") data) ;;
    transcript <- lift (method_strip value) ;;
    if is_nil transcript then
      ret (jsonify [(error, PyStr (py "Empty transcript provided"))] 400)
    else
      '(summary, sentiment) <- analyze_transcript (PyStr transcript) ;;
      (if negb (startswith summary (py "Error") || startswith sentiment (py "Error"))
       then save_to_csv (PyStr transcript) summary sentiment
       else print (py "Skipping CSV save due to analysis errors")) ;;
      ret (jsonify [(py "transcript", PyStr transcript);
                    (py "summary", PyStr summary);
                    (py "sentiment", PyStr sentiment);
                    (py "status", PyStr (py "success"))] 200).

(** [history()], the handler of GET /history, lines 240-252. *)
Definition history : M Response :=
  present <- isfile ;;
  if negb present then
    ret (render_template (py "history.html") (RecordsContext []))
  else
    text <- file_read ;;
    records <- lift (DictReader text) ;;
    ret (render_template (py "history.html") (RecordsContext records)).

(** [download_csv()], the handler of GET /download-csv, lines 254-277. *)
Definition download_csv : M Response :=
  let filename := py "call_analysis.csv" in
  present <- isfile ;;
  if negb present then
    open_w ;;
    DictWriter_writeheader fieldnames ;;
    flash (py "No analysis data found. Please analyze a transcript first.") error ;;
    ret (redirect (url_for index_view))
  else
    try_except
      (send_file filename (py "text/csv") true (py "call_analysis.csv"))
      (fun e =>
         flash (py "Error downloading CSV: " ++ exn_str e) error ;;
         ret (redirect (url_for history_view))).

End Application.
End App.
Export App.

(* ================================================================== *)
(** ** A concrete runtime for worked examples                          *)
(* ================================================================== *)

(** The properties below hold for every [PyRuntime] and every client.
    To run the application on concrete requests, this module gives one
    runtime: a JSON reader for the fragment of JSON made of objects,
    arrays, strings with the one-letter escapes, integers, [true],
    [false] and [null] (it rejects everything else, also the numbers
    with a fraction or an exponent that Python accepts), and a [repr]
    for strings that puts the text between apostrophes (Python's [repr]
    for printable text without apostrophes and backslashes). *)
Module Sample.

Local Open Scope N_scope.

Definition json_ws (c : char) : bool :=
  (c =? 32) || (c =? 9) || (c =? 10) || (c =? 13).

Fixpoint skip_ws (s : pystr) : pystr :=
  match s with
  | [] => []
  | c :: s' => if json_ws c then skip_ws s' else s
  end.

Definition unescape (c : char) : option char :=
  if c =? DQUOTE then Some DQUOTE
  else if c =? 92 then Some 92          (* backslash *)
  else if c =? 47 then Some 47          (* slash *)
  else if c =? 110 then Some LF         (* n *)
  else if c =? 114 then Some CR         (* r *)
  else if c =? 116 then Some 9          (* t *)
  else if c =? 98 then Some 8           (* b *)
  else if c =? 102 then Some 12         (* f *)
  else None.

Definition cons_fst {A} (c : char) (r : option (pystr * A)) : option (pystr * A) :=
  match r with
  | Some (s, rest) => Some (c :: s, rest)
  | None => None
  end.

(** The text of a string after its opening quote, and what follows the
    closing quote. *)
Fixpoint scan_string (s : pystr) : option (pystr * pystr) :=
  match s with
  | [] => None
  | c :: s' =>
      if c =? DQUOTE then Some ([], s')
      else if c =? 92 then
        match s' with
        | e :: s'' =>
            match unescape e with
            | Some x => cons_fst x (scan_string s'')
            | None => None
            end
        | [] => None
        end
      else if c <? 32 then None
      else cons_fst c (scan_string s')
  end.

Definition is_digit (c : char) : bool := (48 <=? c) && (c <=? 57).

Fixpoint scan_digits (s : pystr) (acc : Z) : Z * pystr :=
  match s with
  | c :: s' =>
      if is_digit c then scan_digits s' (10 * acc + Z.of_N (c - 48))%Z
      else (acc, s)
  | [] => (acc, [])
  end.

(** An integer: an optional minus sign, then [0] or digits not starting
    with [0]; a fraction or an exponent after it is rejected. *)
Definition scan_int (s : pystr) : option (Z * pystr) :=
  let '(negative, body) :=
    match s with
    | c :: s' => if c =? 45 then (true, s') else (false, s)
    | [] => (false, s)
    end in
  match body with
  | d :: after =>
      if is_digit d then
        let '(n, rest) :=
          if d =? 48 then (0%Z, after) else scan_digits body 0%Z in
        match rest with
        | x :: _ =>
            if is_digit x || (x =? 46) || (x =? 101) || (x =? 69) then None
            else Some (if negative then (- n)%Z else n, rest)
        | [] => Some (if negative then (- n)%Z else n, rest)
        end
      else None
  | [] => None
  end.

(** [d[key] = value] while a JSON object is built: a repeated key keeps
    its place and takes the later value. *)
Fixpoint dict_put (key : pystr) (value : pyvalue) (d : list (pystr * pyvalue))
  : list (pystr * pyvalue) :=
  match d with
  | [] => [(key, value)]
  | (k, v) :: d' =>
      if pystr_eqb k key then (k, value) :: d'
      else (k, v) :: dict_put key value d'
  end.

Section Containers.
Variable parse : pystr -> option (pyvalue * pystr).

(** The elements of an array, from the start of an element to the
    closing bracket. *)
Fixpoint parse_elements (fuel : nat) (s : pystr) (acc : list pyvalue)
  : option (list pyvalue * pystr) :=
  match fuel with
  | O => None
  | S fuel' =>
      match parse s with
      | None => None
      | Some (v, rest) =>
          match skip_ws rest with
          | c :: rest' =>
              if c =? COMMA then parse_elements fuel' rest' (acc ++ [v])
              else if c =? 93 then Some (acc ++ [v], rest')
              else None
          | [] => None
          end
      end
  end.

(** The members of an object, from the start of a key to the closing
    brace. *)
Fixpoint parse_members (fuel : nat) (s : pystr) (acc : list (pystr * pyvalue))
  : option (list (pystr * pyvalue) * pystr) :=
  match fuel with
  | O => None
  | S fuel' =>
      match skip_ws s with
      | q :: s1 =>
          if q =? DQUOTE then
            match scan_string s1 with
            | Some (key, s2) =>
                match skip_ws s2 with
                | colon :: s3 =>
                    if colon =? COLON then
                      match parse s3 with
                      | Some (v, s4) =>
                          match skip_ws s4 with
                          | c :: s5 =>
                              if c =? COMMA
                              then parse_members fuel' s5 (dict_put key v acc)
                              else if c =? 125 then Some (dict_put key v acc, s5)
                              else None
                          | [] => None
                          end
                      | None => None
                      end
                    else None
                | [] => None
                end
            | None => None
            end
          else None
      | [] => None
      end
  end.

End Containers.

Definition literal (word : pystr) (v : pyvalue) (s : pystr) : option (pyvalue * pystr) :=
  if startswith s word then Some (v, skipn (List.length word) s) else None.

Fixpoint parse_value (fuel : nat) (s : pystr) : option (pyvalue * pystr) :=
  match fuel with
  | O => None
  | S fuel' =>
      match skip_ws s with
      | [] => None
      | c :: rest =>
          if c =? DQUOTE then
            match scan_string rest with
            | Some (text, rest') => Some (PyStr text, rest')
            | None => None
            end
          else if c =? 123 then
            match skip_ws rest with
            | x :: rest' =>
                if x =? 125 then Some (PyDict [], rest')
                else match parse_members (parse_value fuel') fuel' rest [] with
                     | Some (d, rest'') => Some (PyDict d, rest'')
                     | None => None
                     end
            | [] => None
            end
          else if c =? 91 then
            match skip_ws rest with
            | x :: rest' =>
                if x =? 93 then Some (PyList [], rest')
                else match parse_elements (parse_value fuel') fuel' rest [] with
                     | Some (l, rest'') => Some (PyList l, rest'')
                     | None => None
                     end
            | [] => None
            end
          else if c =? 116 then literal (py "true") (PyBool true) (c :: rest)
          else if c =? 102 then literal (py "false") (PyBool false) (c :: rest)
          else if c =? 110 then literal (py "null") PyNone (c :: rest)
          else match scan_int (c :: rest) with
               | Some (z, rest') => Some (PyInt z, rest')
               | None => None
               end
      end
  end.

Definition decode_error (msg : pystr) : exn := Exn JSONDecodeError msg.

Definition loads (s : pystr) : outcome pyvalue :=
  match parse_value (S (List.length s)) s with
  | Some (v, rest) =>
      match skip_ws rest with
      | [] => Returns v
      | _ => Raises (decode_error (py "Extra data"))
      end
  | None => Raises (decode_error (py "Expecting value"))
  end.

Definition runtime : PyRuntime :=
  {| json_loads := loads;
     repr_str := fun s => [SQUOTE] ++ s ++ [SQUOTE];
     repr_float := fun _ => py "nan" |}.

(** Text between double quotes, to write JSON documents. *)
Definition q (s : string) : pystr := [DQUOTE] ++ py s ++ [DQUOTE].

(** Four documents: a mapping whose [transcript] is the empty string,
    the number 42, [null], the empty array. *)
Definition doc_empty_transcript : pystr :=
  py "{" ++ q "transcript" ++ py ": " ++ [DQUOTE; DQUOTE] ++ py "}".

Definition doc_number_transcript : pystr :=
  py "{" ++ q "transcript" ++ py ": 42}".

Definition doc_null_transcript : pystr :=
  py "{" ++ q "transcript" ++ py ": null}".

Definition doc_list_transcript : pystr :=
  py "{" ++ q "transcript" ++ py ": []}".

(** A world with no CSV file and nothing logged. *)
Definition fresh_world : World :=
  {| csv_file := None; chat_log := []; flashes := []; stdout := []; save_log := [] |}.

(** A client whose every call raises. *)
Definition failing_client : Groq :=
  {| chat_completions_create := fun _ _ =>
       Raises (Exn (OtherException (py "APIConnectionError")) (py "Connection error.")) |}.

(** A client that answers the first request with a summary and every
    later request with a sentiment sentence. *)
Definition canned_client : Groq :=
  {| chat_completions_create := fun log _ =>
       match log with
       | [] => Returns {| choices := [Some (py "The customer reported a late delivery. The agent apologised.")] |}
       | _ => Returns {| choices := [Some (py "Sentiment: Frustrated and Negative. The customer was upset.")] |}
       end |}.

(** An upload of [content] under the name [call.json], and a JSON body
    for the API. *)
Definition upload (content : pystr) : HttpRequest :=
  {| files := [(py "json_file", {| filename := py "call.json"; read_decode := Returns content |})];
     form := [];
     get_json := Raises (Exn (OtherException (py "UnsupportedMediaType")) (py "415 Unsupported Media Type")) |}.

Definition api_post (body : pyvalue) : HttpRequest :=
  {| files := []; form := []; get_json := Returns body |}.

Definition form_post (text : pystr) : HttpRequest :=
  {| files := []; form := [(py "transcript", text)];
     get_json := Raises (Exn (OtherException (py "UnsupportedMediaType")) (py "415 Unsupported Media Type")) |}.

End Sample.

(* ================================================================== *)
(** ** Vocabulary of the specification                                 *)
(* ================================================================== *)

Module Spec.

(** The failure sentinel: the text starts with [Error]. *)
Definition is_error (s : pystr) : bool := startswith s (py "Error").

(** The normalization as the specification words it: remove quote
    characters and trim; keep the first line; keep what follows the last
    colon; keep what precedes the first period; trim. *)
Definition normalize_spec (s : pystr) : pystr :=
  let s1 := strip (replace SQUOTE [] (replace DQUOTE [] s)) in
  let s2 := if contains LF s1 then first_part (split LF s1) else s1 in
  let s3 := if contains COLON s2 then last_part (split COLON s2) else s2 in
  let s4 := first_part (split PERIOD s3) in
  strip s4.

(** The two requests [analyze_transcript] sends for a transcript. *)
Definition summary_request (rt : PyRuntime) (transcript : pyvalue) : ChatRequest :=
  user_request (summary_prompt (py_str rt transcript)) 0.3.

Definition sentiment_request (rt : PyRuntime) (transcript : pyvalue) : ChatRequest :=
  user_request (sentiment_prompt (py_str rt transcript)) 0.1.


(** The sanitization of a field as the specification words it: every
    newline and carriage return becomes a space, every double quote is
    removed. *)
Definition sanitize_spec (s : pystr) : pystr :=
  filter (fun c => negb (c =? DQUOTE)%N)
         (map (fun c => if ((c =? LF) || (c =? CR))%N then SPACE else c) s).

(** The two rows of the file after a save of [(t, s, m)]. *)
Definition header_row : pystr := py "Transcript,Summary,Sentiment".

Definition data_row (t s m : pystr) : pystr :=
  join [COMMA] (map write_field [clean_field t; clean_field s; clean_field m]).

Definition saved_text (t s m : pystr) : pystr :=
  header_row ++ [CR; LF] ++ data_row t s m ++ [CR; LF].

(** The world after [save_to_csv] has run on texts [(t, s, m)]. *)
Definition saved_world (t s m : pystr) (w : World) : World :=
  {| csv_file := Some (saved_text t s m);
     chat_log := chat_log w;
     flashes := flashes w;
     stdout := stdout w
               ++ [py "Fresh CSV created with data: " ++ slice_to 50 (clean_field t)
                   ++ py "... | " ++ slice_to 50 (clean_field s)
                   ++ py "... | " ++ clean_field m];
     save_log := save_log w ++ [(PyStr t, s, m)] |}.

(** The world after a [save_to_csv] on texts [(t, s, m)] that raised
    while it wrote the data row: the call is logged, the file holds the
    header row only, and the last line was not printed. *)
Definition header_only_world (t s m : pystr) (w : World) : World :=
  {| csv_file := Some (header_row ++ [CR; LF]);
     chat_log := chat_log w;
     flashes := flashes w;
     stdout := stdout w;
     save_log := save_log w ++ [(PyStr t, s, m)] |}.

(** The three texts of a triple are free of surrogates. *)
Definition encodable_triple (t s m : pystr) : bool :=
  utf8_encodable t && utf8_encodable s && utf8_encodable m.

(** A sequence of saves, one after the other. *)
Fixpoint save_all (records : list (pystr * pystr * pystr)) (w : World) : World :=
  match records with
  | [] => w
  | (t, s, m) :: rest => save_all rest (snd (save_to_csv (PyStr t) s m w))
  end.

(** The record [history] shows for a saved triple. *)
Definition saved_record (t s m : pystr) : DictRow :=
  [(Some (py "Transcript"), CellStr (clean_field t));
   (Some (py "Summary"), CellStr (clean_field s));
   (Some (py "Sentiment"), CellStr (clean_field m))].

(** The part of the world the analysis leaves alone: the CSV file, the
    flashed messages and the log of saves. *)
Definition same_store (w w' : World) : Prop :=
  csv_file w' = csv_file w /\ flashes w' = flashes w /\ save_log w' = save_log w.

(** A computation that leaves that part alone, whatever it returns. *)
Definition quiet {A} (m : M A) : Prop :=
  forall w, same_store w (snd (m w)).

(** A computation that does not change the world. *)
Definition pure {A} (m : M A) : Prop := forall w, snd (m w) = w.

(** The keys [parse_json_transcript] looks for, in priority order, and
    the value of the first of them a mapping has. *)
Definition priority_keys : list pystr :=
  [py "transcript"; py "conversation"; py "dialogue"; py "text"].

Fixpoint first_present (keys : list pystr) (d : list (pystr * pyvalue))
  : option pyvalue :=
  match keys with
  | [] => None
  | k :: ks =>
      match dict_get k d with
      | Some v => Some v
      | None => first_present ks d
      end
  end.





End Spec.
Export Spec.

(* ================================================================== *)
(** ** The start of the module: the inference client                   *)
(* ================================================================== *)

Module Startup.

(** [s.strip(chars)]: the characters of [chars] are removed from both
    ends of [s]. *)
Fixpoint lstrip_chars (chars s : pystr) : pystr :=
  match s with
  | [] => []
  | c :: s' => if contains c chars then lstrip_chars chars s' else s
  end.

Fixpoint rstrip_chars (chars s : pystr) : pystr :=
  match s with
  | [] => []
  | c :: s' =>
      match rstrip_chars chars s' with
      | [] => if contains c chars then [] else [c]
      | r => c :: r
      end
  end.

Definition strip_chars (chars s : pystr) : pystr :=
  rstrip_chars chars (lstrip_chars chars s).

Section Initialization.

(** The environment ([os.getenv], after [load_dotenv()]) and the
    constructor [Groq(api_key=...)], which returns a client or raises. *)
Variable getenv : pystr -> option pystr.
Variable Groq_new : pystr -> outcome Groq.

(** The key handed to the constructor (line 19): stripped of
    whitespace, then of apostrophes and double quotes at both ends. *)
Definition trimmed_key (api_key : pystr) : pystr :=
  strip_chars [SQUOTE; DQUOTE] (strip api_key).


End Initialization.

End Startup.
Export Startup.

(* ================================================================== *)
(** ** More vocabulary and sample data                                 *)
(* ================================================================== *)

Module Cases.



(** The run of a handler that refuses a request: it calls [flash],
    which raises for want of a secret key, so the handler answers
    nothing and leaves the world as it was. *)
Definition refused (w : World) : outcome Response * World :=
  (Raises session_unavailable, w).

(** The JSON body of a successful API answer. *)
Definition api_body (transcript summary sentiment : pystr) : list (pystr * pyvalue) :=
  [(py "transcript", PyStr transcript);
   (py "summary", PyStr summary);
   (py "sentiment", PyStr sentiment);
   (py "status", PyStr (py "success"))].

(** The same request with another form and another JSON body. *)
Definition with_form (request : HttpRequest) (form' : list (pystr * pystr))
    (json' : outcome pyvalue) : HttpRequest :=
  {| files := files request; form := form'; get_json := json' |}.

(** The typed text of a request, as line 191 reads it. *)
Definition typed_text (request : HttpRequest) : pystr :=
  strip (match lookup (py "transcript") (form request) with
         | Some text => text
         | None => []
         end).

(** A client whose completions have no choice. *)
Definition empty_client : Groq :=
  {| chat_completions_create := fun _ _ => Returns {| choices := [] |} |}.


(** An environment with a quoted key, and a constructor that accepts
    every key. *)
Definition quoted_env (name : pystr) : option pystr :=
  if pystr_eqb name (py "GROQ_API_KEY")
  then Some (py " 'gsk_0123456789abcdef' ")
  else None.

Definition any_key_client (api_key : pystr) : outcome Groq :=
  Returns Sample.canned_client.

(** An upload under a name that does not end in [.json]. *)
Definition upload_named (name content : pystr) : HttpRequest :=
  {| files := [(py "json_file", {| filename := name; read_decode := Returns content |})];
     form := [(py "transcript", py "typed text")];
     get_json := Raises (Exn (OtherException (py "UnsupportedMediaType"))
                             (py "415 Unsupported Media Type")) |}.

(** An upload whose bytes are not UTF-8. *)
Definition upload_undecodable : HttpRequest :=
  {| files := [(py "json_file",
                {| filename := py "call.json";
                   read_decode := Raises (Exn (OtherException (py "UnicodeDecodeError"))
                                              (py "'utf-8' codec can't decode byte 0xff in position 0: invalid start byte")) |})];
     form := [];
     get_json := Raises (Exn (OtherException (py "UnsupportedMediaType"))
                             (py "415 Unsupported Media Type")) |}.

End Cases.
Export Cases.

(* ================================================================== *)
(** ** Facts about the string methods                                  *)
(* ================================================================== *)

Module TextFacts.

Local Open Scope N_scope.
#[local] Arguments isspace : simpl never.

Lemma contains_In (c : char) (s : pystr) : contains c s = true <-> In c s.
Proof.
  unfold contains. rewrite existsb_exists. split.
  - intros (x & Hin & Heq). apply N.eqb_eq in Heq. now subst.
  - intro Hin. exists c. split; [assumption | apply N.eqb_refl].
Qed.

Lemma contains_false (c : char) (s : pystr) : contains c s = false <-> ~ In c s.
Proof.
  rewrite <- contains_In. destruct (contains c s); split; intros; congruence.
Qed.

Lemma contains_cons (c x : char) (s : pystr) :
  contains c (x :: s) = (c =? x) || contains c s.
Proof. reflexivity. Qed.

(** *** Stripping keeps a part of the string *)

Lemma lstrip_In (x : char) (s : pystr) : In x (lstrip s) -> In x s.
Proof.
  induction s as [|a s IH]; simpl; [tauto|].
  destruct (isspace a); simpl; tauto.
Qed.

Lemma rstrip_In (x : char) (s : pystr) : In x (rstrip s) -> In x s.
Proof.
  induction s as [|a s IH]; simpl; [tauto|].
  destruct (rstrip s) as [|b r] eqn:E.
  - destruct (isspace a); simpl; tauto.
  - simpl in *. tauto.
Qed.

Lemma strip_In (x : char) (s : pystr) : In x (strip s) -> In x s.
Proof. intro H. apply lstrip_In, rstrip_In, H. Qed.

Lemma strip_keeps_absent (c : char) (s : pystr) :
  contains c s = false -> contains c (strip s) = false.
Proof.
  rewrite !contains_false. intros H Hin. apply H, strip_In, Hin.
Qed.

(** *** Stripping is idempotent *)

Lemma lstrip_head (s : pystr) :
  lstrip s = [] \/ exists c t, lstrip s = c :: t /\ isspace c = false.
Proof.
  induction s as [|a s IH]; simpl; [now left|].
  destruct (isspace a) eqn:E; [exact IH|]. right. now exists a, s.
Qed.

Lemma lstrip_nonspace (c : char) (s : pystr) :
  isspace c = false -> lstrip (c :: s) = c :: s.
Proof. intro H. simpl. now rewrite H. Qed.

Lemma lstrip_idem (s : pystr) : lstrip (lstrip s) = lstrip s.
Proof.
  destruct (lstrip_head s) as [E | (c & t & E & Hc)]; rewrite E; [reflexivity|].
  now apply lstrip_nonspace.
Qed.

Lemma rstrip_cons_nonspace (c : char) (s : pystr) :
  isspace c = false -> rstrip (c :: s) = c :: rstrip s.
Proof.
  intro H. simpl. destruct (rstrip s); [now rewrite H | reflexivity].
Qed.

Lemma rstrip_idem (s : pystr) : rstrip (rstrip s) = rstrip s.
Proof.
  induction s as [|a s IH]; [reflexivity|]. simpl.
  destruct (rstrip s) as [|b r] eqn:E.
  - destruct (isspace a) eqn:Ha; simpl; [reflexivity | now rewrite Ha].
  - change (rstrip (a :: b :: r)) with
      (match rstrip (b :: r) with [] => if isspace a then [] else [a] | x => a :: x end).
    now rewrite IH.
Qed.

Lemma lstrip_rstrip (s : pystr) : lstrip (rstrip s) = rstrip (lstrip s).
Proof.
  induction s as [|a s IH]; [reflexivity|].
  destruct (isspace a) eqn:Ha.
  - simpl. rewrite Ha, <- IH.
    destruct (rstrip s) as [|b r]; simpl; [reflexivity | now rewrite Ha].
  - rewrite (lstrip_nonspace a s Ha), (rstrip_cons_nonspace a s Ha).
    now apply lstrip_nonspace.
Qed.

Lemma strip_idem (s : pystr) : strip (strip s) = strip s.
Proof.
  unfold strip. now rewrite (lstrip_rstrip (lstrip s)), lstrip_idem, rstrip_idem.
Qed.

(** *** Replacing and splitting *)

Lemma replace_nil_absent (c : char) (s : pystr) :
  contains c (replace c [] s) = false.
Proof.
  apply contains_false. unfold replace. rewrite in_flat_map.
  intros (x & _ & Hin). destruct (x =? c) eqn:E; simpl in Hin; [tauto|].
  destruct Hin as [->|[]]. now rewrite N.eqb_refl in E.
Qed.

Lemma replace_nil_In (c x : char) (s : pystr) :
  In x (replace c [] s) -> In x s.
Proof.
  unfold replace. rewrite in_flat_map. intros (y & Hy & Hin).
  destruct (y =? c); simpl in Hin; [tauto|]. now destruct Hin as [->|[]].
Qed.

Lemma replace_nil_keeps_absent (c d : char) (s : pystr) :
  contains d s = false -> contains d (replace c [] s) = false.
Proof.
  rewrite !contains_false. intros H Hin. apply H, (replace_nil_In _ _ _ Hin).
Qed.

Lemma split_nonempty (c : char) (s : pystr) : split c s <> [].
Proof.
  destruct s as [|a s]; simpl; [discriminate|].
  destruct (a =? c); [discriminate|]. destruct (split c s); discriminate.
Qed.

(** The first part of a split: what precedes the first separator. *)
Lemma first_part_cons (c x : char) (s : pystr) :
  first_part (split c (x :: s))
  = if x =? c then [] else x :: first_part (split c s).
Proof.
  simpl. destruct (x =? c); [reflexivity|].
  destruct (split c s) eqn:E; [now apply split_nonempty in E | reflexivity].
Qed.

Lemma split_absent (c : char) (s : pystr) :
  contains c s = false -> split c s = [s].
Proof.
  induction s as [|a s IH]; [reflexivity|].
  rewrite contains_cons. intro H. apply orb_false_elim in H as [Ha Hs].
  simpl. rewrite N.eqb_sym, Ha, (IH Hs). reflexivity.
Qed.

Lemma split_present (c : char) (s : pystr) :
  contains c s = true -> exists p q ps, split c s = p :: q :: ps.
Proof.
  induction s as [|a s IH]; [discriminate|].
  rewrite contains_cons. intro H. simpl.
  destruct (N.eqb_spec a c) as [->|Hne].
  - destruct (split c s) as [|p ps] eqn:E; [now apply split_nonempty in E|].
    now exists [], p, ps.
  - apply orb_true_iff in H as [H|H]; [apply N.eqb_eq in H; congruence|].
    destruct (IH H) as (p & q & ps & ->). now exists (a :: p), q, ps.
Qed.

(** The last part of a split: what follows the last separator. *)
Lemma last_part_cons (c x : char) (s : pystr) :
  last_part (split c (x :: s))
  = if contains c s then last_part (split c s)
    else if x =? c then s else x :: s.
Proof.
  unfold last_part. destruct (contains c s) eqn:Hc.
  - destruct (split_present c s Hc) as (p & q & ps & E).
    simpl. rewrite E. destruct (x =? c); reflexivity.
  - simpl. rewrite (split_absent c s Hc). destruct (x =? c); reflexivity.
Qed.

Lemma first_part_absent (c : char) (s : pystr) :
  contains c (first_part (split c s)) = false.
Proof.
  induction s as [|a s IH]; [reflexivity|].
  rewrite first_part_cons. destruct (N.eqb_spec a c) as [->|Hne]; [reflexivity|].
  rewrite contains_cons, IH, orb_false_r. apply N.eqb_neq. congruence.
Qed.

Lemma first_part_In (c x : char) (s : pystr) :
  In x (first_part (split c s)) -> In x s.
Proof.
  induction s as [|a s IH]; [simpl; tauto|].
  rewrite first_part_cons. destruct (a =? c); simpl; tauto.
Qed.

Lemma last_part_absent (c : char) (s : pystr) :
  contains c (last_part (split c s)) = false.
Proof.
  induction s as [|a s IH]; [reflexivity|].
  rewrite last_part_cons. destruct (contains c s) eqn:Hc; [exact IH|].
  destruct (N.eqb_spec a c) as [->|Hne]; [exact Hc|].
  rewrite contains_cons, Hc, orb_false_r. apply N.eqb_neq. congruence.
Qed.

Lemma last_part_In (c x : char) (s : pystr) :
  In x (last_part (split c s)) -> In x s.
Proof.
  induction s as [|a s IH]; [simpl; tauto|].
  rewrite last_part_cons. destruct (contains c s); [simpl; tauto|].
  destruct (a =? c); simpl; tauto.
Qed.

Lemma split_length (c : char) (s : pystr) :
  (1 <? List.length (split c s))%nat = contains c s.
Proof.
  destruct (contains c s) eqn:Hc.
  - destruct (split_present c s Hc) as (p & q & ps & ->). reflexivity.
  - now rewrite (split_absent c s Hc).
Qed.

Lemma replace_absent (c : char) (new s : pystr) :
  contains c s = false -> replace c new s = s.
Proof.
  induction s as [|a s IH]; [reflexivity|].
  rewrite contains_cons. intro H. apply orb_false_elim in H as [Ha Hs].
  unfold replace in *. simpl. rewrite N.eqb_sym, Ha, (IH Hs). reflexivity.
Qed.

(** *** Stripping and a separator that is not whitespace *)

Lemma nonspace_neq (c x : char) :
  isspace c = false -> isspace x = true -> (x =? c) = false.
Proof. intros Hc Hx. apply N.eqb_neq. intros ->. congruence. Qed.

Lemma lstrip_contains (c : char) (s : pystr) :
  isspace c = false -> contains c (lstrip s) = contains c s.
Proof.
  intro Hc. induction s as [|a s IH]; [reflexivity|].
  simpl lstrip. destruct (isspace a) eqn:Ha; [|reflexivity].
  rewrite contains_cons, IH, N.eqb_sym, (nonspace_neq c a Hc Ha). reflexivity.
Qed.

Lemma rstrip_contains (c : char) (s : pystr) :
  isspace c = false -> contains c (rstrip s) = contains c s.
Proof.
  intro Hc. induction s as [|a s IH]; [reflexivity|].
  rewrite contains_cons. simpl rstrip. destruct (rstrip s) as [|b r].
  - rewrite <- IH. destruct (isspace a) eqn:Ha.
    + rewrite N.eqb_sym, (nonspace_neq c a Hc Ha). reflexivity.
    + reflexivity.
  - rewrite contains_cons, IH. reflexivity.
Qed.

Lemma strip_contains (c : char) (s : pystr) :
  isspace c = false -> contains c (strip s) = contains c s.
Proof.
  intro Hc. unfold strip. now rewrite rstrip_contains, lstrip_contains.
Qed.

Lemma first_part_lstrip (c : char) (s : pystr) :
  isspace c = false ->
  lstrip (first_part (split c (lstrip s))) = lstrip (first_part (split c s)).
Proof.
  intro Hc. induction s as [|a s IH]; [reflexivity|].
  simpl lstrip at 2. destruct (isspace a) eqn:Ha; [|reflexivity].
  rewrite IH, (first_part_cons c a s), (nonspace_neq c a Hc Ha).
  simpl. now rewrite Ha.
Qed.

Lemma rstrip_cons_congr (a : char) (x y : pystr) :
  rstrip x = rstrip y -> rstrip (a :: x) = rstrip (a :: y).
Proof. intro H. cbn [rstrip]. now rewrite H. Qed.

Lemma first_part_rstrip (c : char) (s : pystr) :
  isspace c = false ->
  rstrip (first_part (split c (rstrip s))) = rstrip (first_part (split c s)).
Proof.
  intro Hc. induction s as [|a s IH]; [reflexivity|].
  rewrite (first_part_cons c a s). cbn [rstrip].
  destruct (rstrip s) as [|b r] eqn:E.
  - destruct (isspace a) eqn:Ha.
    + rewrite (nonspace_neq c a Hc Ha). cbn [rstrip]. now rewrite <- IH, Ha.
    + rewrite (first_part_cons c a []). destruct (a =? c); [reflexivity|].
      now apply rstrip_cons_congr.
  - rewrite (first_part_cons c a (b :: r)). destruct (a =? c); [reflexivity|].
    now apply rstrip_cons_congr.
Qed.

Lemma strip_first_part (c : char) (s : pystr) :
  isspace c = false ->
  strip (first_part (split c (strip s))) = strip (first_part (split c s)).
Proof.
  intro Hc. unfold strip.
  rewrite <- (lstrip_rstrip (first_part (split c (rstrip (lstrip s))))).
  rewrite (first_part_rstrip c (lstrip s) Hc), lstrip_rstrip.
  now rewrite (first_part_lstrip c s Hc).
Qed.

Lemma last_part_lstrip (c : char) (s : pystr) :
  isspace c = false ->
  lstrip (last_part (split c (lstrip s))) = lstrip (last_part (split c s)).
Proof.
  intro Hc. induction s as [|a s IH]; [reflexivity|].
  simpl lstrip at 2. destruct (isspace a) eqn:Ha; [|reflexivity].
  rewrite IH, (last_part_cons c a s), (nonspace_neq c a Hc Ha).
  destruct (contains c s) eqn:Hs; [reflexivity|].
  rewrite (split_absent c s Hs). simpl. now rewrite Ha.
Qed.

Lemma last_part_rstrip (c : char) (s : pystr) :
  isspace c = false ->
  rstrip (last_part (split c (rstrip s))) = rstrip (last_part (split c s)).
Proof.
  intro Hc. induction s as [|a s IH]; [reflexivity|].
  rewrite (last_part_cons c a s).
  pose proof (rstrip_contains c s Hc) as Hcs.
  pose proof (rstrip_idem (a :: s)) as Hid.
  pose proof (rstrip_idem s) as Hids.
  simpl rstrip at 2. simpl rstrip in Hid at 2 3.
  destruct (rstrip s) as [|b r] eqn:E.
  - simpl in Hcs. rewrite <- Hcs. destruct (isspace a) eqn:Ha.
    + rewrite (nonspace_neq c a Hc Ha). simpl. now rewrite E, Ha.
    + rewrite (last_part_cons c a []). simpl contains. cbv iota.
      destruct (a =? c); [now rewrite E | simpl; now rewrite E, Ha].
  - rewrite (last_part_cons c a (b :: r)), Hcs.
    destruct (contains c s); [exact IH|].
    destruct (a =? c); [now rewrite Hids|]. rewrite Hid. cbn [rstrip]. now rewrite E.
Qed.

Lemma strip_last_part (c : char) (s : pystr) :
  isspace c = false ->
  strip (last_part (split c (strip s))) = strip (last_part (split c s)).
Proof.
  intro Hc. unfold strip.
  rewrite <- (lstrip_rstrip (last_part (split c (rstrip (lstrip s))))).
  rewrite (last_part_rstrip c (lstrip s) Hc), lstrip_rstrip.
  now rewrite (last_part_lstrip c s Hc).
Qed.

End TextFacts.

(* ================================================================== *)
(** ** The sentiment normalizer                                        *)
(* ================================================================== *)

Module Normalizer.
Import TextFacts.

Local Open Scope N_scope.

Lemma first_part_keeps_absent (d c : char) (s : pystr) :
  contains d s = false -> contains d (first_part (split c s)) = false.
Proof.
  rewrite !contains_false. intros H Hin. apply H, (first_part_In c d s Hin).
Qed.

Lemma last_part_keeps_absent (d c : char) (s : pystr) :
  contains d s = false -> contains d (last_part (split c s)) = false.
Proof.
  rewrite !contains_false. intros H Hin. apply H, (last_part_In c d s Hin).
Qed.

(** Keeping what follows the last separator commutes with stripping. *)
Lemma keep_last_strip (c : char) (t : pystr) :
  isspace c = false ->
  (if contains c (strip t) then strip (last_part (split c (strip t))) else strip t)
  = strip (if contains c t then last_part (split c t) else t).
Proof.
  intro Hc. rewrite (strip_contains c t Hc).
  destruct (contains c t); [now apply strip_last_part | reflexivity].
Qed.

(** The source keeps the first segment only when the split has more
    than one part; stripped, that is the first segment in every case. *)
Lemma keep_first_strip (c : char) (t : pystr) :
  isspace c = false ->
  (if (1 <? List.length (split c (strip t)))%nat
   then strip (first_part (split c (strip t))) else strip t)
  = strip (first_part (split c t)).
Proof.
  intro Hc. rewrite split_length, (strip_contains c t Hc).
  destruct (contains c t) eqn:E; [now apply strip_first_part|].
  now rewrite (split_absent c t E).
Qed.

(** The source's steps and the specification's steps give the same
    label on every input. *)
Lemma clean_sentiment_spec_eq (s : pystr) :
  clean_sentiment s = normalize_spec s.
Proof.
  unfold clean_sentiment, normalize_spec. cbv zeta.
  set (s1 := strip (replace SQUOTE [] (replace DQUOTE [] s))).
  assert (H1 : strip s1 = s1) by apply strip_idem.
  set (t2 := if contains LF s1 then first_part (split LF s1) else s1).
  assert (H2 : (if contains LF s1 then strip (first_part (split LF s1)) else s1)
               = strip t2).
  { unfold t2. destruct (contains LF s1); [reflexivity | now rewrite H1]. }
  rewrite H2.
  rewrite (keep_last_strip COLON t2 eq_refl).
  apply (keep_first_strip PERIOD _ eq_refl).
Qed.

(** The label [normalize_spec] returns holds none of the characters the
    steps remove, and is stripped. *)
Lemma normalize_spec_shape (s : pystr) :
  let r := normalize_spec s in
  contains DQUOTE r = false /\ contains SQUOTE r = false /\
  contains LF r = false /\ contains COLON r = false /\
  contains PERIOD r = false /\ strip r = r.
Proof.
  unfold normalize_spec. cbv zeta.
  set (s1 := strip (replace SQUOTE [] (replace DQUOTE [] s))).
  set (s2 := if contains LF s1 then first_part (split LF s1) else s1).
  set (s3 := if contains COLON s2 then last_part (split COLON s2) else s2).
  assert (Q1 : contains DQUOTE s1 = false).
  { apply strip_keeps_absent, replace_nil_keeps_absent, replace_nil_absent. }
  assert (Q2 : contains SQUOTE s1 = false).
  { apply strip_keeps_absent, replace_nil_absent. }
  assert (K2 : forall d, contains d s1 = false -> contains d s2 = false).
  { intros d Hd. unfold s2. destruct (contains LF s1); [|exact Hd].
    now apply first_part_keeps_absent. }
  assert (L2 : contains LF s2 = false).
  { unfold s2. destruct (contains LF s1) eqn:E; [apply first_part_absent | exact E]. }
  assert (K3 : forall d, contains d s2 = false -> contains d s3 = false).
  { intros d Hd. unfold s3. destruct (contains COLON s2); [|exact Hd].
    now apply last_part_keeps_absent. }
  assert (C3 : contains COLON s3 = false).
  { unfold s3. destruct (contains COLON s2) eqn:E; [apply last_part_absent | exact E]. }
  repeat split.
  - apply strip_keeps_absent, first_part_keeps_absent, K3, K2, Q1.
  - apply strip_keeps_absent, first_part_keeps_absent, K3, K2, Q2.
  - apply strip_keeps_absent, first_part_keeps_absent, K3, L2.
  - apply strip_keeps_absent, first_part_keeps_absent, C3.
  - apply strip_keeps_absent, first_part_absent.
  - apply strip_idem.
Qed.

(** A label of that shape is left as it is. *)
Lemma clean_sentiment_fixed (r : pystr) :
  contains DQUOTE r = false -> contains SQUOTE r = false ->
  contains LF r = false -> contains COLON r = false ->
  contains PERIOD r = false -> strip r = r ->
  clean_sentiment r = r.
Proof.
  intros Hd Hs Hl Hc Hp Hr. unfold clean_sentiment. cbv zeta.
  rewrite (replace_absent DQUOTE [] r Hd), (replace_absent SQUOTE [] r Hs).
  rewrite Hr, Hl, Hc, split_length, Hp. reflexivity.
Qed.

(** C4. The sentiment normalization performs, in order: removal of the
    quote characters and trimming; keeping the first line of a
    multi-line text; keeping the text after the last colon, if there is
    a colon; keeping the first of the segments separated by periods;
    trimming. On the completion
    [Sentiment: Frustrated and Negative. The customer was upset.]
    it yields [Frustrated and Negative]. *)
Theorem clean_sentiment_as_specified :
  (forall s, clean_sentiment s = normalize_spec s)
  /\ clean_sentiment
       (py "Sentiment: Frustrated and Negative. The customer was upset.")
     = py "Frustrated and Negative".
Proof.
  split; [exact clean_sentiment_spec_eq | vm_compute; reflexivity].
Qed.

(** C5. The sentiment normalization is idempotent: normalizing a
    normalized label returns that label, for every input string. *)
Theorem clean_sentiment_idempotent :
  forall s, clean_sentiment (clean_sentiment s) = clean_sentiment s.
Proof.
  intro s. rewrite (clean_sentiment_spec_eq s).
  destruct (normalize_spec_shape s) as (Hd & Hs & Hl & Hc & Hp & Hr).
  now apply clean_sentiment_fixed.
Qed.

End Normalizer.

(* ================================================================== *)
(** ** The analysis pipeline                                           *)
(* ================================================================== *)

Module Pipeline.



(** *** Running the monad step by step *)

Lemma bind_print {B} (line : pystr) (k : unit -> M B) (w : World) :
  bind (print line) k w = k tt (snd (print line w)).
Proof. reflexivity. Qed.

Lemma bind_create {B} (groq : Groq) (request : ChatRequest)
    (k : ChatCompletion -> M B) (w : World) :
  bind (create groq request) k w
  = match chat_completions_create groq (chat_log w) request with
    | Returns response => k response (snd (create groq request w))
    | Raises e => (Raises e, snd (create groq request w))
    end.
Proof.
  unfold bind, create. cbn [snd].
  destruct (chat_completions_create groq (chat_log w) request); reflexivity.
Qed.

Lemma bind_returns {A B} (m : M A) (k : A -> M B) (w w1 : World) (a : A) :
  m w = (Returns a, w1) -> bind m k w = k a w1.
Proof. intro E. unfold bind. now rewrite E. Qed.

Lemma bind_raises {A B} (m : M A) (k : A -> M B) (w w1 : World) (e : exn) :
  m w = (Raises e, w1) -> bind m k w = (Raises e, w1).
Proof. intro E. unfold bind. now rewrite E. Qed.

Lemma chat_log_print (line : pystr) (w : World) :
  chat_log (snd (print line w)) = chat_log w.
Proof. reflexivity. Qed.

Lemma chat_log_create (groq : Groq) (request : ChatRequest) (w : World) :
  chat_log (snd (create groq request w)) = chat_log w ++ [request].
Proof. reflexivity. Qed.

Lemma first_content_stripped_cases (response : ChatCompletion) (w : World) :
  (exists text, first_content_stripped response w = (Returns text, w))
  \/ (exists e, first_content_stripped response w = (Raises e, w)).
Proof.
  unfold first_content_stripped. destruct (choices response) as [|[content|] rest].
  - right. eexists. reflexivity.
  - left. eexists. reflexivity.
  - right. eexists. reflexivity.
Qed.

(** *** Computations that leave the store alone *)

Lemma same_store_refl (w : World) : same_store w w.
Proof. now repeat split. Qed.

Lemma same_store_trans (w1 w2 w3 : World) :
  same_store w1 w2 -> same_store w2 w3 -> same_store w1 w3.
Proof.
  intros (A1 & A2 & A3) (B1 & B2 & B3). repeat split; congruence.
Qed.

Lemma quiet_ret {A} (a : A) : quiet (ret a).
Proof. intro w. apply same_store_refl. Qed.

Lemma quiet_raise {A} (e : exn) : quiet (@raise A e).
Proof. intro w. apply same_store_refl. Qed.

Lemma quiet_print (line : pystr) : quiet (print line).
Proof. intro w. now repeat split. Qed.

Lemma quiet_create (groq : Groq) (request : ChatRequest) :
  quiet (create groq request).
Proof. intro w. now repeat split. Qed.

Lemma quiet_bind {A B} (m : M A) (k : A -> M B) :
  quiet m -> (forall a, quiet (k a)) -> quiet (bind m k).
Proof.
  intros Hm Hk w. unfold bind. specialize (Hm w).
  destruct (m w) as [[a|e] w1]; cbn [snd] in *; [|exact Hm].
  apply (same_store_trans Hm), Hk.
Qed.

Lemma quiet_try_except {A} (body : M A) (handler : exn -> M A) :
  quiet body -> (forall e, quiet (handler e)) -> quiet (try_except body handler).
Proof.
  intros Hb Hh w. unfold try_except. specialize (Hb w).
  destruct (body w) as [[a|e] w1]; cbn [snd] in *; [exact Hb|].
  apply (same_store_trans Hb), Hh.
Qed.

Lemma quiet_first_content_stripped (response : ChatCompletion) :
  quiet (first_content_stripped response).
Proof.
  intro w.
  destruct (first_content_stripped_cases response w) as [(x & ->) | (e & ->)];
    apply same_store_refl.
Qed.

Ltac quiet_steps :=
  repeat first
    [ apply quiet_ret | apply quiet_raise | apply quiet_print
    | apply quiet_create | apply quiet_first_content_stripped
    | apply quiet_bind; [|intro] ].

Lemma quiet_analyze_transcript (rt : PyRuntime) (client : option Groq)
    (transcript : pyvalue) :
  quiet (analyze_transcript rt client transcript).
Proof.
  unfold analyze_transcript. apply quiet_try_except.
  - destruct client as [groq|]; quiet_steps.
  - intro e. quiet_steps.
Qed.




End Pipeline.

(* ================================================================== *)
(** ** The result store                                                *)
(* ================================================================== *)

Module Store.
Import TextFacts.

Local Open Scope N_scope.

Lemma replace_removes (c : char) (new s : pystr) :
  contains c new = false -> contains c (replace c new s) = false.
Proof.
  rewrite !contains_false. intros Hnew Hin. unfold replace in Hin.
  apply in_flat_map in Hin as (x & _ & Hx).
  destruct (x =? c) eqn:E; [tauto|]. destruct Hx as [->|[]].
  now rewrite N.eqb_refl in E.
Qed.

Lemma replace_keeps_absent (d c : char) (new s : pystr) :
  contains d s = false -> contains d new = false ->
  contains d (replace c new s) = false.
Proof.
  rewrite !contains_false. intros Hs Hnew Hin. unfold replace in Hin.
  apply in_flat_map in Hin as (x & Hxs & Hx).
  destruct (x =? c); [tauto|]. destruct Hx as [->|[]]. tauto.
Qed.

(** The cleaned field holds no newline, no carriage return and no
    double quote. *)
Lemma clean_field_shape (s : pystr) :
  contains LF (clean_field s) = false
  /\ contains CR (clean_field s) = false
  /\ contains DQUOTE (clean_field s) = false.
Proof.
  unfold clean_field. repeat split; apply strip_keeps_absent.
  - apply replace_keeps_absent; [|reflexivity].
    apply replace_keeps_absent; [|reflexivity].
    now apply replace_removes.
  - apply replace_keeps_absent; [|reflexivity]. now apply replace_removes.
  - now apply replace_removes.
Qed.

(** The chain of [replace] calls is the sanitization of the
    specification; the source then strips the field. *)
Lemma clean_field_sanitized (s : pystr) :
  clean_field s = strip (sanitize_spec s).
Proof.
  unfold clean_field, sanitize_spec, replace. f_equal.
  induction s as [|a s IH]; [reflexivity|].
  cbn [flat_map map]. destruct (a =? LF) eqn:E1.
  - cbn [app flat_map orb filter]. rewrite <- IH. reflexivity.
  - cbn [app flat_map orb]. destruct (a =? CR) eqn:E2.
    + cbn [app flat_map filter]. rewrite <- IH. reflexivity.
    + cbn [app flat_map filter]. rewrite <- IH.
      destruct (a =? DQUOTE); reflexivity.
Qed.

Lemma contains_app (c : char) (a b : pystr) :
  contains c (a ++ b) = contains c a || contains c b.
Proof. apply existsb_app. Qed.

Lemma needs_quotes_contains (f : pystr) :
  needs_quotes f
  = contains COMMA f || contains DQUOTE f || contains CR f || contains LF f.
Proof.
  unfold needs_quotes, contains, special.
  induction f as [|a f IH]; [reflexivity|].
  cbn [existsb]. rewrite IH.
  rewrite (N.eqb_sym COMMA a), (N.eqb_sym DQUOTE a), (N.eqb_sym CR a), (N.eqb_sym LF a).
  destruct (a =? COMMA), (a =? DQUOTE), (a =? CR), (a =? LF);
    cbn [orb]; rewrite ?orb_true_r; reflexivity.
Qed.

(** A cleaned field is written as it is, between double quotes when it
    holds a comma. *)
Lemma write_field_clean (f : pystr) :
  contains LF f = false -> contains CR f = false -> contains DQUOTE f = false ->
  write_field f = if contains COMMA f then [DQUOTE] ++ f ++ [DQUOTE] else f.
Proof.
  intros Hl Hc Hq. unfold write_field.
  rewrite (replace_absent DQUOTE _ f Hq), needs_quotes_contains, Hl, Hc, Hq.
  now rewrite !orb_false_r.
Qed.

Lemma write_field_no_break (f : pystr) :
  contains LF f = false -> contains CR f = false -> contains DQUOTE f = false ->
  contains LF (write_field f) = false /\ contains CR (write_field f) = false.
Proof.
  intros Hl Hc Hq. rewrite (write_field_clean f Hl Hc Hq).
  destruct (contains COMMA f); [|now split].
  rewrite !contains_app, Hl, Hc. now split.
Qed.

Lemma data_row_no_break (t s m : pystr) :
  contains LF (data_row t s m) = false /\ contains CR (data_row t s m) = false.
Proof.
  unfold data_row. cbn [map join].
  destruct (clean_field_shape t) as (Tl & Tc & Tq).
  destruct (clean_field_shape s) as (Sl & Sc & Sq).
  destruct (clean_field_shape m) as (Ml & Mc & Mq).
  destruct (write_field_no_break _ Tl Tc Tq) as [T1 T2].
  destruct (write_field_no_break _ Sl Sc Sq) as [S1 S2].
  destruct (write_field_no_break _ Ml Mc Mq) as [M1 M2].
  rewrite !contains_app, T1, T2, S1, S2, M1, M2. now split.
Qed.

(** *** Reading the lines of a file *)

Lemma universal_newlines_clean (a : pystr) :
  contains CR a = false -> universal_newlines a = a.
Proof.
  induction a as [|x a IH]; [reflexivity|].
  rewrite contains_cons. intro H. apply orb_false_elim in H as [Hx Ha].
  cbn [universal_newlines]. rewrite N.eqb_sym, Hx, (IH Ha). reflexivity.
Qed.

Lemma universal_newlines_crlf (a b : pystr) :
  contains CR a = false ->
  universal_newlines (a ++ CR :: LF :: b) = a ++ LF :: universal_newlines b.
Proof.
  induction a as [|x a IH]; [reflexivity|].
  rewrite contains_cons. intro H. apply orb_false_elim in H as [Hx Ha].
  cbn [universal_newlines app]. rewrite N.eqb_sym, Hx, (IH Ha). reflexivity.
Qed.

Lemma file_lines_line (a b : pystr) :
  contains LF a = false ->
  file_lines (a ++ LF :: b) = (a ++ [LF]) :: file_lines b.
Proof.
  induction a as [|x a IH]; [reflexivity|].
  rewrite contains_cons. intro H. apply orb_false_elim in H as [Hx Ha].
  cbn [file_lines app]. rewrite N.eqb_sym, Hx, (IH Ha). reflexivity.
Qed.

(** The saved file has two lines: the header and one data row. *)
Lemma saved_text_lines (t s m : pystr) :
  file_lines (universal_newlines (saved_text t s m))
  = [header_row ++ [LF]; data_row t s m ++ [LF]].
Proof.
  destruct (data_row_no_break t s m) as [Hl Hc]. unfold saved_text.
  change (header_row ++ [CR; LF] ++ data_row t s m ++ [CR; LF])
    with (header_row ++ CR :: LF :: (data_row t s m ++ CR :: LF :: [])).
  rewrite (universal_newlines_crlf header_row _ eq_refl).
  rewrite (universal_newlines_crlf (data_row t s m) [] Hc).
  rewrite (file_lines_line header_row _ eq_refl).
  rewrite (file_lines_line (data_row t s m) _ Hl). reflexivity.
Qed.

(** *** Texts UTF-8 can encode *)

Lemma utf8_encodable_app (a b : pystr) :
  utf8_encodable (a ++ b) = utf8_encodable a && utf8_encodable b.
Proof. apply forallb_app. Qed.

Lemma utf8_encodable_cons (c : char) (s : pystr) :
  utf8_encodable (c :: s) = negb (is_surrogate c) && utf8_encodable s.
Proof. reflexivity. Qed.

(** No whitespace character is a surrogate. *)
Lemma isspace_not_surrogate (c : char) :
  isspace c = true -> is_surrogate c = false.
Proof.
  intro H. destruct (is_surrogate c) eqn:E; [|reflexivity].
  unfold is_surrogate in E. apply andb_true_iff in E as [E1 E2].
  apply N.leb_le in E1, E2. unfold isspace in H.
  repeat rewrite ?orb_true_iff, ?andb_true_iff, ?N.leb_le, ?N.eqb_eq in H.
  lia.
Qed.

Lemma utf8_encodable_lstrip (s : pystr) :
  utf8_encodable (lstrip s) = utf8_encodable s.
Proof.
  induction s as [|c s IH]; [reflexivity|]. cbn [lstrip].
  destruct (isspace c) eqn:E; [|reflexivity].
  rewrite utf8_encodable_cons, (isspace_not_surrogate c E). exact IH.
Qed.

Lemma utf8_encodable_rstrip (s : pystr) :
  utf8_encodable (rstrip s) = utf8_encodable s.
Proof.
  induction s as [|c s IH]; [reflexivity|]. cbn [rstrip].
  rewrite (utf8_encodable_cons c s), <- IH.
  destruct (rstrip s) as [|x r]; [|reflexivity].
  destruct (isspace c) eqn:E.
  - now rewrite (isspace_not_surrogate c E).
  - reflexivity.
Qed.

Lemma utf8_encodable_strip (s : pystr) :
  utf8_encodable (strip s) = utf8_encodable s.
Proof.
  unfold strip. now rewrite utf8_encodable_rstrip, utf8_encodable_lstrip.
Qed.

Lemma utf8_encodable_replace (old : char) (new s : pystr) :
  is_surrogate old = false -> utf8_encodable new = true ->
  utf8_encodable (replace old new s) = utf8_encodable s.
Proof.
  intros Hold Hnew. unfold replace.
  induction s as [|c s IH]; [reflexivity|].
  cbn [flat_map]. rewrite utf8_encodable_app, IH, utf8_encodable_cons.
  destruct (c =? old) eqn:E.
  - apply N.eqb_eq in E. subst c. now rewrite Hnew, Hold.
  - rewrite utf8_encodable_cons. cbn [utf8_encodable forallb].
    now rewrite andb_true_r.
Qed.

(** Cleaning a field and writing it neither adds nor removes a
    surrogate. *)
Lemma utf8_encodable_clean_field (s : pystr) :
  utf8_encodable (clean_field s) = utf8_encodable s.
Proof.
  unfold clean_field.
  now rewrite utf8_encodable_strip, !utf8_encodable_replace.
Qed.

Lemma utf8_encodable_write_field (f : pystr) :
  utf8_encodable (write_field f) = utf8_encodable f.
Proof.
  unfold write_field. destruct (needs_quotes f); [|reflexivity].
  rewrite !utf8_encodable_app.
  rewrite utf8_encodable_replace; [|reflexivity|reflexivity].
  change (utf8_encodable [DQUOTE]) with true. now rewrite andb_true_r.
Qed.

(** The data row can be encoded exactly when the three texts can. *)
Lemma utf8_encodable_data_row (t s m : pystr) :
  utf8_encodable (data_row t s m ++ [CR; LF]) = encodable_triple t s m.
Proof.
  unfold data_row, encodable_triple. cbn [map join].
  rewrite !utf8_encodable_app, !utf8_encodable_write_field,
    !utf8_encodable_clean_field.
  change (utf8_encodable [COMMA]) with true.
  change (utf8_encodable [CR; LF]) with true.
  cbn [andb]. now rewrite andb_true_r, andb_assoc.
Qed.

Lemma encodable_triple_true (t s m : pystr) :
  utf8_encodable t = true -> utf8_encodable s = true -> utf8_encodable m = true ->
  encodable_triple t s m = true.
Proof. intros Ht Hs Hm. unfold encodable_triple. now rewrite Ht, Hs, Hm. Qed.

(** *** The run of [save_to_csv] *)

(** Up to the data row: the call is logged, the file is truncated and
    the header is written. *)
Lemma save_to_csv_steps (t s m : pystr) (w : World) :
  save_to_csv (PyStr t) s m w
  = bind (file_write (data_row t s m ++ [CR; LF]))
      (fun _ =>
         print (py "Fresh CSV created with data: " ++ slice_to 50 (clean_field t)
                ++ py "... | " ++ slice_to 50 (clean_field s)
                ++ py "... | " ++ clean_field m))
      (header_only_world t s m w).
Proof. reflexivity. Qed.

(** [save_to_csv] on a text transcript: when UTF-8 can encode the three
    texts it returns and leaves exactly the saved text in the file,
    whatever the file held; when it cannot, the write of the data row
    raises and the file is left with the header row. *)
Lemma save_to_csv_run (t s m : pystr) (w : World) :
  save_to_csv (PyStr t) s m w
  = if encodable_triple t s m
    then (Returns tt, saved_world t s m w)
    else (Raises (unicode_encode_error (data_row t s m ++ [CR; LF])),
          header_only_world t s m w).
Proof.
  rewrite save_to_csv_steps. unfold bind, file_write.
  rewrite utf8_encodable_data_row.
  destruct (encodable_triple t s m); reflexivity.
Qed.

Lemma save_to_csv_text (t s m : pystr) (w : World) :
  encodable_triple t s m = true ->
  save_to_csv (PyStr t) s m w = (Returns tt, saved_world t s m w).
Proof. intro H. now rewrite save_to_csv_run, H. Qed.

Lemma save_all_last (earlier : list (pystr * pystr * pystr)) (t s m : pystr) (w : World) :
  encodable_triple t s m = true ->
  csv_file (save_all (earlier ++ [(t, s, m)]) w) = Some (saved_text t s m).
Proof.
  intro H. revert w. induction earlier as [|[[t0 s0] m0] earlier IH]; intro w.
  - cbn [app save_all]. now rewrite (save_to_csv_text t s m w H).
  - cbn [app save_all]. apply IH.
Qed.

(** C3 (amended). For every (transcript, summary, sentiment) triple of
    texts that UTF-8 can encode, [save_to_csv] sanitizes each field
    (newlines and carriage returns become spaces, double quotes are
    removed), then strips it, and overwrites the file, which afterwards
    holds the header row [Transcript,Summary,Sentiment] and one data row
    made of the three sanitized and stripped fields, and nothing else:
    its lines are these two. After any sequence of saves that ends with
    such a triple the file is what that last save alone writes. *)
Theorem save_to_csv_single_record :
  forall (earlier : list (pystr * pystr * pystr)) (t s m : pystr) (w : World),
    utf8_encodable t = true -> utf8_encodable s = true -> utf8_encodable m = true ->
    (exists w', save_to_csv (PyStr t) s m w = (Returns tt, w')
                /\ csv_file w' = Some (saved_text t s m))
    /\ saved_text t s m
       = py "Transcript,Summary,Sentiment" ++ [CR; LF]
         ++ join [COMMA]
              (map write_field (map (fun x => strip (sanitize_spec x)) [t; s; m]))
         ++ [CR; LF]
    /\ file_lines (universal_newlines (saved_text t s m))
       = [py "Transcript,Summary,Sentiment" ++ [LF]; data_row t s m ++ [LF]]
    /\ csv_file (save_all (earlier ++ [(t, s, m)]) w) = Some (saved_text t s m).
Proof.
  intros earlier t s m w Ht Hs Hm.
  pose proof (encodable_triple_true t s m Ht Hs Hm) as H.
  repeat split.
  - exists (saved_world t s m w). split; [now apply save_to_csv_text | reflexivity].
  - unfold saved_text, data_row. cbn [map].
    now rewrite !clean_field_sanitized.
  - apply saved_text_lines.
  - now apply save_all_last.
Qed.

Lemma save_to_csv_single_record_witness :
  utf8_encodable ([SPACE] ++ py "Agent: hello" ++ [LF] ++ py "Customer: my order, again ") = true
  /\ utf8_encodable (py "The order is late.") = true
  /\ utf8_encodable (py "Impatient and Negative") = true
  /\ (exists w',
         save_to_csv (PyStr ([SPACE] ++ py "Agent: hello" ++ [LF] ++ py "Customer: my order, again "))
           (py "The order is late.") (py "Impatient and Negative") Sample.fresh_world
         = (Returns tt, w')
         /\ csv_file w'
            = Some (saved_text ([SPACE] ++ py "Agent: hello" ++ [LF] ++ py "Customer: my order, again ")
                      (py "The order is late.") (py "Impatient and Negative")))
  /\ saved_text ([SPACE] ++ py "Agent: hello" ++ [LF] ++ py "Customer: my order, again ")
       (py "The order is late.") (py "Impatient and Negative")
     = py "Transcript,Summary,Sentiment" ++ [CR; LF]
       ++ [DQUOTE] ++ py "Agent: hello Customer: my order, again" ++ [DQUOTE]
       ++ py ",The order is late.,Impatient and Negative" ++ [CR; LF]
  /\ csv_file (save_all ([(py "an earlier call", py "An earlier summary.", py "Mixed and Neutral")]
                         ++ [([SPACE] ++ py "Agent: hello" ++ [LF] ++ py "Customer: my order, again ",
                              py "The order is late.", py "Impatient and Negative")])
                 Sample.fresh_world)
     = Some (saved_text ([SPACE] ++ py "Agent: hello" ++ [LF] ++ py "Customer: my order, again ")
               (py "The order is late.") (py "Impatient and Negative")).
Proof.
  destruct (@save_to_csv_single_record
              [(py "an earlier call", py "An earlier summary.", py "Mixed and Neutral")]
              ([SPACE] ++ py "Agent: hello" ++ [LF] ++ py "Customer: my order, again ")
              (py "The order is late.") (py "Impatient and Negative") Sample.fresh_world
              eq_refl eq_refl eq_refl) as (Hrun & _ & _ & Hlast).
  split; [reflexivity|]. split; [reflexivity|]. split; [reflexivity|].
  split; [exact Hrun|]. split; [vm_compute; reflexivity | exact Hlast].
Defined.

(** C3 as it was claimed does not hold for every triple. A field that
    holds a lone surrogate (U+D800 here, as the JSON escape of an
    uploaded document produces it) cannot be written: [save_to_csv]
    raises [UnicodeEncodeError] after it has truncated the file, which
    is left with the header row and no data row. And a field is not only
    sanitized but also stripped: the transcript made of a space and the
    letter a is its own sanitization, and the row holds the letter
    alone. *)
Lemma save_to_csv_single_record_counterexample :
  save_to_csv (PyStr (py "Caller: " ++ [55296])) (py "A call.")
    (py "Neutral and Cautious")
    {| csv_file := Some (py "an older file"); chat_log := []; flashes := [];
       stdout := []; save_log := [] |}
  = (Raises (Exn UnicodeEncodeError
               (py "'utf-8' codec can't encode character '\ud800' in position 8: surrogates not allowed")),
     {| csv_file := Some (py "Transcript,Summary,Sentiment" ++ [CR; LF]);
        chat_log := []; flashes := []; stdout := [];
        save_log := [(PyStr (py "Caller: " ++ [55296]), py "A call.",
                      py "Neutral and Cautious")] |})
  /\ sanitize_spec (py " a") = py " a"
  /\ csv_file (snd (save_to_csv (PyStr (py " a")) (py "b") (py "c") Sample.fresh_world))
     = Some (py "Transcript,Summary,Sentiment" ++ [CR; LF] ++ py "a,b,c" ++ [CR; LF]).
Proof. split; [|split]; vm_compute; reflexivity. Qed.

End Store.

(* ================================================================== *)
(** ** The request handlers                                            *)
(* ================================================================== *)

Module Handlers.

Lemma dict_has_get (key : pystr) (d : list (pystr * pyvalue)) :
  dict_has key d = match dict_get key d with Some _ => true | None => false end.
Proof.
  induction d as [|[k v] d IH]; [reflexivity|].
  unfold dict_has in *. cbn [existsb dict_get fst].
  destruct (pystr_eqb k key); [reflexivity | exact IH].
Qed.

Lemma dict_get_nonempty (key : pystr) (d : list (pystr * pyvalue)) (v : pyvalue) :
  dict_get key d = Some v -> truthy (PyDict d) = true.
Proof. destruct d; [discriminate | reflexivity]. Qed.

(** C8 (the code departs from it). On GET /download-csv, when
    [call_analysis.csv] does not exist the handler creates the file with
    the header row only, but it answers with no redirect and no message:
    the application has no secret key, so the call of [flash] that
    follows raises [RuntimeError], no message is recorded and the
    [redirect] of the next line is never reached. When the file exists,
    it is sent as an attachment named [call_analysis.csv]. *)
Theorem download_csv_behaviour :
  forall w : World,
    match csv_file w with
    | None =>
        download_csv w
        = (Raises (Exn RuntimeError
                     (py "The session is unavailable because no secret key was set.  Set the secret_key on the application to something unique and secret.")),
           {| csv_file := Some (py "Transcript,Summary,Sentiment" ++ [CR; LF]);
              chat_log := chat_log w;
              flashes := flashes w;
              stdout := stdout w;
              save_log := save_log w |})
    | Some text =>
        download_csv w
        = (Returns (send_file_response (py "call_analysis.csv") (py "text/csv")
                      true (py "call_analysis.csv") text),
           w)
    end.
Proof.
  intros [[text|] log fl out sv]; reflexivity.
Qed.

(** C7. A POST to /api/analyze whose JSON object has no [transcript]
    key, or whose [transcript] is a string that is empty once stripped,
    is answered with status 400 and a JSON object holding an [error]
    field; the world is left as it was, so no inference call and no
    save is made. *)
Theorem api_analyze_rejects_missing_or_empty
    (rt : PyRuntime) (client : option Groq) (request : HttpRequest)
    (d : list (pystr * pyvalue)) (w : World) :
  get_json request = Returns (PyDict d) ->
  dict_get (py "transcript") d = None
  \/ (exists t, dict_get (py "transcript") d = Some (PyStr t) /\ strip t = []) ->
  exists msg,
    api_analyze rt client request w
    = (Returns (jsonify [(py "error", PyStr msg)] 400), w).
Proof.
  intros Hjson Hcase. unfold api_analyze, bind, lift. rewrite Hjson.
  cbn [contains_key]. rewrite (dict_has_get (py "transcript") d).
  destruct Hcase as [Hnone | (t & Hsome & Hempty)].
  - rewrite Hnone. eexists.
    destruct (negb (truthy (PyDict d))); reflexivity.
  - rewrite (dict_get_nonempty _ _ Hsome). cbn [negb ret]. rewrite Hsome.
    cbn [negb getitem]. rewrite Hsome. cbn [method_strip]. rewrite Hempty.
    eexists. reflexivity.
Qed.

Lemma api_analyze_rejects_missing_or_empty_witness :
  (get_json (Sample.api_post (PyDict [(py "transcript", PyStr (py "   "))]))
   = Returns (PyDict [(py "transcript", PyStr (py "   "))]))
  /\ (dict_get (py "transcript") [(py "transcript", PyStr (py "   "))] = None
      \/ (exists t, dict_get (py "transcript") [(py "transcript", PyStr (py "   "))]
                    = Some (PyStr t) /\ strip t = []))
  /\ exists msg,
       api_analyze Sample.runtime (Some Sample.canned_client)
         (Sample.api_post (PyDict [(py "transcript", PyStr (py "   "))]))
         Sample.fresh_world
       = (Returns (jsonify [(py "error", PyStr msg)] 400), Sample.fresh_world).
Proof.
  split; [reflexivity|]. split.
  - right. exists (py "   "). split; reflexivity.
  - apply (api_analyze_rejects_missing_or_empty Sample.runtime
             (Some Sample.canned_client)
             (Sample.api_post (PyDict [(py "transcript", PyStr (py "   "))]))
             (d := [(py "transcript", PyStr (py "   "))]) Sample.fresh_world).
    + reflexivity.
    + right. exists (py "   "). split; reflexivity.
Defined.

(** C10. A POST to /api/analyze whose JSON object binds [transcript] to
    a value that is not a string (42, for one) makes the handler raise
    [AttributeError] at [.strip()]: no response is produced, neither the
    400 for an empty transcript nor any other. *)
Theorem api_analyze_raises_on_non_string
    (rt : PyRuntime) (client : option Groq) (request : HttpRequest)
    (d : list (pystr * pyvalue)) (v : pyvalue) (w : World) :
  get_json request = Returns (PyDict d) ->
  dict_get (py "transcript") d = Some v ->
  is_str v = false ->
  api_analyze rt client request w
  = (Raises (Exn AttributeError
               (py "'" ++ type_name v ++ py "' object has no attribute 'strip'")), w).
Proof.
  intros Hjson Hsome Hstr. unfold api_analyze, bind, lift. rewrite Hjson.
  cbn [contains_key]. rewrite (dict_has_get (py "transcript") d), Hsome.
  rewrite (dict_get_nonempty _ _ Hsome). cbn [negb ret getitem]. rewrite Hsome.
  destruct v; try discriminate Hstr; reflexivity.
Qed.

Lemma api_analyze_raises_on_non_string_witness :
  get_json (Sample.api_post (PyDict [(py "transcript", PyInt 42)]))
  = Returns (PyDict [(py "transcript", PyInt 42)])
  /\ dict_get (py "transcript") [(py "transcript", PyInt 42)] = Some (PyInt 42)
  /\ is_str (PyInt 42) = false
  /\ api_analyze Sample.runtime (Some Sample.canned_client)
       (Sample.api_post (PyDict [(py "transcript", PyInt 42)])) Sample.fresh_world
     = (Raises (Exn AttributeError (py "'int' object has no attribute 'strip'")),
        Sample.fresh_world).
Proof.
  split; [reflexivity|]. split; [reflexivity|]. split; [reflexivity|].
  apply (api_analyze_raises_on_non_string Sample.runtime (Some Sample.canned_client)
           (Sample.api_post (PyDict [(py "transcript", PyInt 42)]))
           (d := [(py "transcript", PyInt 42)]) (v := PyInt 42) Sample.fresh_world);
    reflexivity.
Defined.

(** *** The guard on saving *)

Import Pipeline Store.



#[local] Opaque analyze_transcript save_to_csv py.




(** [parse_json_transcript] reads its argument and nothing else. *)
Lemma parse_json_transcript_pure (rt : PyRuntime) (content : pystr) :
  pure (parse_json_transcript rt content).
Proof.
  intro w. unfold parse_json_transcript, try_except_only, bind, lift, ret.
  destruct (json_loads rt content) as [data|e]; cbn [snd].
  - destruct data; try reflexivity.
    repeat match goal with
           | |- context [if dict_has ?k ?d then _ else _] => destruct (dict_has k d)
           | |- context [getitem ?k ?v] => destruct (getitem k v)
           | |- context [if is_JSONDecodeError ?e then _ else _] =>
               destruct (is_JSONDecodeError e)
           end; reflexivity.
  - destruct (is_JSONDecodeError e); reflexivity.
Qed.





End Handlers.

(* ================================================================== *)
(** ** Uploaded JSON documents                                         *)
(* ================================================================== *)

Module Uploads.
Import Handlers.

(** For a mapping, [parse_json_transcript] returns the value of the
    first priority key present, as [json.loads] built it, and the text
    of the whole mapping when none of the four keys is present. *)
Lemma parse_json_transcript_mapping (rt : PyRuntime) (content : pystr)
    (d : list (pystr * pyvalue)) (w : World) :
  json_loads rt content = Returns (PyDict d) ->
  parse_json_transcript rt content w
  = (Returns (match first_present priority_keys d with
              | Some v => v
              | None => PyStr (py_str rt (PyDict d))
              end), w).
Proof.
  intro H. unfold parse_json_transcript, try_except_only, bind, lift. rewrite H.
  cbn [first_present priority_keys getitem]. rewrite !dict_has_get.
  destruct (dict_get (py "transcript") d); [reflexivity|].
  destruct (dict_get (py "conversation") d); [reflexivity|].
  destruct (dict_get (py "dialogue") d); [reflexivity|].
  destruct (dict_get (py "text") d); reflexivity.
Qed.

(** For an array, it returns the elements' texts joined by spaces. *)
Lemma parse_json_transcript_array (rt : PyRuntime) (content : pystr)
    (items : list pyvalue) (w : World) :
  json_loads rt content = Returns (PyList items) ->
  parse_json_transcript rt content w
  = (Returns (PyStr (join [SPACE] (map (py_str rt) items))), w).
Proof.
  intro H. unfold parse_json_transcript, try_except_only, bind, lift.
  now rewrite H.
Qed.

(** For a document [json.loads] rejects, it returns [None]. *)
Lemma parse_json_transcript_malformed (rt : PyRuntime) (content : pystr)
    (e : exn) (w : World) :
  json_loads rt content = Raises e -> is_JSONDecodeError e = true ->
  parse_json_transcript rt content w = (Returns PyNone, w).
Proof.
  intros H He. unfold parse_json_transcript, try_except_only, bind, lift.
  now rewrite H, He.
Qed.

(** C9 (the code departs from it). When the uploaded file is valid
    JSON, a mapping whose highest-priority key present has a falsy
    value, the page handler does what it does for a file that is not
    valid JSON: it calls [flash] with
    [Invalid JSON format. Please check your file.]. But the application
    has no secret key, so that call raises [RuntimeError]; the except
    clause around it catches the error and calls [flash] again, and this
    second error leaves the handler. In both cases alike no message is
    recorded and no redirect is answered; nothing is analysed or saved,
    the world is as it was. *)
Theorem analyze_falsy_value_as_invalid_json
    (rt : PyRuntime) (client : option Groq) (request : HttpRequest)
    (file : FileStorage) (content : pystr) (w : World) :
  lookup (py "json_file") (files request) = Some file ->
  negb (is_nil (filename file)) && endswith (filename file) (py ".json") = true ->
  read_decode file = Returns content ->
  (exists d v, json_loads rt content = Returns (PyDict d)
               /\ first_present priority_keys d = Some v
               /\ truthy v = false)
  \/ (exists e, json_loads rt content = Raises e /\ is_JSONDecodeError e = true) ->
  analyze rt client request w
  = (Raises (Exn RuntimeError
               (py "The session is unavailable because no secret key was set.  Set the secret_key on the application to something unique and secret.")),
     w).
Proof.
  intros Hfile Hname Hread Hdoc. unfold analyze. cbv zeta.
  rewrite Hfile, Hname. unfold bind at 1, try_except.
  unfold bind at 1, lift at 1. rewrite Hread. unfold bind at 1.
  destruct Hdoc as [(d & v & Hloads & Hkey & Hfalsy) | (e & Hloads & He)].
  - rewrite (parse_json_transcript_mapping rt content w Hloads), Hkey, Hfalsy.
    reflexivity.
  - rewrite (parse_json_transcript_malformed rt content w Hloads He).
    reflexivity.
Qed.

Lemma analyze_falsy_value_as_invalid_json_witness :
  lookup (py "json_file") (files (Sample.upload Sample.doc_empty_transcript))
  = Some {| filename := py "call.json";
            read_decode := Returns Sample.doc_empty_transcript |}
  /\ negb (is_nil (py "call.json")) && endswith (py "call.json") (py ".json") = true
  /\ ((exists d v, json_loads Sample.runtime Sample.doc_empty_transcript = Returns (PyDict d)
                   /\ first_present priority_keys d = Some v
                   /\ truthy v = false)
      \/ (exists e, json_loads Sample.runtime Sample.doc_empty_transcript = Raises e
                    /\ is_JSONDecodeError e = true))
  /\ analyze Sample.runtime (Some Sample.canned_client)
       (Sample.upload Sample.doc_empty_transcript) Sample.fresh_world
     = (Raises (Exn RuntimeError
                  (py "The session is unavailable because no secret key was set.  Set the secret_key on the application to something unique and secret.")),
        Sample.fresh_world).
Proof.
  assert (Hdoc : exists d v,
             json_loads Sample.runtime Sample.doc_empty_transcript = Returns (PyDict d)
             /\ first_present priority_keys d = Some v
             /\ truthy v = false).
  { exists [(py "transcript", PyStr [])], (PyStr []).
    split; [vm_compute; reflexivity | split; reflexivity]. }
  split; [reflexivity|]. split; [reflexivity|]. split; [left; exact Hdoc|].
  apply (@analyze_falsy_value_as_invalid_json Sample.runtime (Some Sample.canned_client)
           (Sample.upload Sample.doc_empty_transcript)
           {| filename := py "call.json";
              read_decode := Returns Sample.doc_empty_transcript |}
           Sample.doc_empty_transcript Sample.fresh_world).
  - reflexivity.
  - reflexivity.
  - reflexivity.
  - left. exact Hdoc.
Defined.

(** The same happens for a [transcript] that is [null]. *)
Example analyze_null_transcript :
  analyze Sample.runtime (Some Sample.canned_client)
    (Sample.upload Sample.doc_null_transcript) Sample.fresh_world
  = (Raises session_unavailable, Sample.fresh_world).
Proof. vm_compute. reflexivity. Qed.

(** And for a [transcript] that is the empty array. *)
Example analyze_empty_list_transcript :
  analyze Sample.runtime (Some Sample.canned_client)
    (Sample.upload Sample.doc_list_transcript) Sample.fresh_world
  = (Raises session_unavailable, Sample.fresh_world).
Proof. vm_compute. reflexivity. Qed.

(** C6 (the code departs from it). [parse_json_transcript] returns the
    value of the first priority key as [json.loads] built it, without
    turning it into text: for the document that binds [transcript] to
    the number 42 it returns the integer 42, not the text [42]; the
    page handler then analyses it and raises [AttributeError] in
    [save_to_csv], which calls [.replace] on the transcript. The other
    two branches do return text (see [parse_json_transcript_mapping]
    and [parse_json_transcript_array]). *)
Theorem parse_json_transcript_keeps_value :
  parse_json_transcript Sample.runtime Sample.doc_number_transcript Sample.fresh_world
  = (Returns (PyInt 42), Sample.fresh_world)
  /\ PyInt 42 <> PyStr (py "42")
  /\ fst (analyze Sample.runtime (Some Sample.canned_client)
            (Sample.upload Sample.doc_number_transcript) Sample.fresh_world)
     = Raises (Exn AttributeError (py "'int' object has no attribute 'replace'")).
Proof.
  split; [vm_compute; reflexivity|]. split; [discriminate|].
  vm_compute. reflexivity.
Qed.

(** The spec's example of an array: the elements joined by spaces. *)
Example parse_json_transcript_abc :
  parse_json_transcript Sample.runtime
    (py "[" ++ Sample.q "a" ++ py ", " ++ Sample.q "b" ++ py ", " ++ Sample.q "c" ++ py "]")
    Sample.fresh_world
  = (Returns (PyStr (py "a b c")), Sample.fresh_world).
Proof. vm_compute. reflexivity. Qed.

End Uploads.

(* ================================================================== *)
(** ** Reading the saved file back                                     *)
(* ================================================================== *)

Module ReadBack.
Import TextFacts Store.

Local Open Scope N_scope.

Lemma not_contains_cons (c x : char) (g : pystr) :
  contains c (x :: g) = false -> (x =? c) = false /\ contains c g = false.
Proof.
  rewrite contains_cons, N.eqb_sym. intro H. now apply orb_false_elim in H.
Qed.

Lemma under_limit (acc : pystr) (x : char) (g : pystr) :
  N.of_nat (List.length (acc ++ x :: g)) <= field_limit ->
  (field_limit <=? N.of_nat (List.length acc)) = false
  /\ N.of_nat (List.length ((acc ++ [x]) ++ g)) <= field_limit.
Proof.
  intro H. rewrite <- app_assoc. split; [|exact H].
  apply N.leb_gt. rewrite List.length_app in H. cbn [List.length] in H. lia.
Qed.

(** Inside an unquoted field, characters other than the delimiter and
    the line breaks are added to the field. *)
Lemma feed_in_field (g : pystr) :
  forall (acc : pystr) (fs : list pystr) (rest : pystr),
    contains COMMA g = false -> contains CR g = false -> contains LF g = false ->
    N.of_nat (List.length (acc ++ g)) <= field_limit ->
    process_line {| state := IN_FIELD; field := acc; fields := fs |} (g ++ rest)
    = process_line {| state := IN_FIELD; field := acc ++ g; fields := fs |} rest.
Proof.
  induction g as [|x g IH]; intros acc fs rest Hc Hr Hl Hlen.
  - now rewrite app_nil_r.
  - apply not_contains_cons in Hc as [Hxc Hc], Hr as [Hxr Hr], Hl as [Hxl Hl].
    destruct (under_limit acc x g Hlen) as [Hroom Hlen'].
    cbn [app process_line]. unfold parse_process_char, parse_add_char.
    cbn [state field fields]. rewrite Hxl, Hxr, Hxc, Hroom. cbn [orb].
    rewrite (IH (acc ++ [x]) fs rest Hc Hr Hl Hlen'), <- app_assoc. reflexivity.
Qed.

(** Inside a quoted field, characters other than the quote are added to
    the field. *)
Lemma feed_in_quoted_field (g : pystr) :
  forall (acc : pystr) (fs : list pystr) (rest : pystr),
    contains DQUOTE g = false ->
    N.of_nat (List.length (acc ++ g)) <= field_limit ->
    process_line {| state := IN_QUOTED_FIELD; field := acc; fields := fs |} (g ++ rest)
    = process_line {| state := IN_QUOTED_FIELD; field := acc ++ g; fields := fs |} rest.
Proof.
  induction g as [|x g IH]; intros acc fs rest Hq Hlen.
  - now rewrite app_nil_r.
  - apply not_contains_cons in Hq as [Hxq Hq].
    destruct (under_limit acc x g Hlen) as [Hroom Hlen'].
    cbn [app process_line]. unfold parse_process_char, parse_add_char.
    cbn [state field fields]. rewrite Hxq, Hroom.
    rewrite (IH (acc ++ [x]) fs rest Hq Hlen'), <- app_assoc. reflexivity.
Qed.

(** A cleaned field, as the writer wrote it, is read back as it was:
    at the start of a record or of a field, up to the delimiter. *)
Lemma read_field_then_comma (f : pystr) (st : ParserState) (fs : list pystr)
    (rest : pystr) :
  st = START_RECORD \/ st = START_FIELD ->
  contains LF f = false -> contains CR f = false -> contains DQUOTE f = false ->
  N.of_nat (List.length f) <= field_limit ->
  process_line {| state := st; field := []; fields := fs |}
    (write_field f ++ COMMA :: rest)
  = process_line {| state := START_FIELD; field := []; fields := fs ++ [f] |} rest.
Proof.
  intros Hst Hl Hr Hq Hlen. rewrite (write_field_clean f Hl Hr Hq).
  destruct (contains COMMA f) eqn:Hc.
  - (* quoted *)
    cbn [app process_line].
    assert (E : parse_process_char {| state := st; field := []; fields := fs |} (Char DQUOTE)
                = Returns {| state := IN_QUOTED_FIELD; field := []; fields := fs |}).
    { destruct Hst as [-> | ->]; reflexivity. }
    rewrite E, <- app_assoc, (feed_in_quoted_field f [] fs _ Hq Hlen).
    reflexivity.
  - (* unquoted *)
    destruct f as [|x g].
    + cbn [app process_line]. destruct Hst as [-> | ->]; reflexivity.
    + apply not_contains_cons in Hc as [Hxc Hc], Hr as [Hxr Hr], Hl as [Hxl Hl],
        Hq as [Hxq Hq].
      cbn [app process_line].
      assert (E : parse_process_char {| state := st; field := []; fields := fs |} (Char x)
                  = Returns {| state := IN_FIELD; field := [x]; fields := fs |}).
      { destruct Hst as [-> | ->]; unfold parse_process_char, start_field, parse_add_char;
          cbn [state field fields List.length]; rewrite Hxl, Hxr, Hxq, Hxc; reflexivity. }
      rewrite E, (feed_in_field g [x] fs _ Hc Hr Hl Hlen).
      cbn [app process_line]. reflexivity.
Qed.

(** The last field of a line, up to the end of the line. *)
Lemma read_field_then_end (f : pystr) (fs : list pystr) :
  contains LF f = false -> contains CR f = false -> contains DQUOTE f = false ->
  N.of_nat (List.length f) <= field_limit ->
  process_line {| state := START_FIELD; field := []; fields := fs |}
    (write_field f ++ [LF])
  = Returns {| state := START_RECORD; field := []; fields := fs ++ [f] |}.
Proof.
  intros Hl Hr Hq Hlen. rewrite (write_field_clean f Hl Hr Hq).
  destruct (contains COMMA f) eqn:Hc.
  - cbn [app process_line].
    change (parse_process_char {| state := START_FIELD; field := []; fields := fs |}
              (Char DQUOTE))
      with (Returns {| state := IN_QUOTED_FIELD; field := []; fields := fs |}).
    rewrite <- app_assoc, (feed_in_quoted_field f [] fs _ Hq Hlen). reflexivity.
  - destruct f as [|x g]; [reflexivity|].
    apply not_contains_cons in Hc as [Hxc Hc], Hr as [Hxr Hr], Hl as [Hxl Hl],
      Hq as [Hxq Hq].
    cbn [app process_line].
    assert (E : parse_process_char {| state := START_FIELD; field := []; fields := fs |}
                  (Char x)
                = Returns {| state := IN_FIELD; field := [x]; fields := fs |}).
    { unfold parse_process_char, start_field, parse_add_char;
        cbn [state field fields List.length]; rewrite Hxl, Hxr, Hxq, Hxc; reflexivity. }
    rewrite E, (feed_in_field g [x] fs _ Hc Hr Hl Hlen).
    cbn [app process_line]. reflexivity.
Qed.

(** The data row of a save is read back as the three cleaned fields. *)
Lemma read_data_row (t s m : pystr) :
  N.of_nat (List.length (clean_field t)) <= field_limit ->
  N.of_nat (List.length (clean_field s)) <= field_limit ->
  N.of_nat (List.length (clean_field m)) <= field_limit ->
  process_line reader_reset (data_row t s m ++ [LF])
  = Returns {| state := START_RECORD; field := [];
               fields := [clean_field t; clean_field s; clean_field m] |}.
Proof.
  intros Ht Hs Hm.
  destruct (clean_field_shape t) as (Tl & Tc & Tq).
  destruct (clean_field_shape s) as (Sl & Sc & Sq).
  destruct (clean_field_shape m) as (Ml & Mc & Mq).
  unfold data_row, reader_reset. cbn [map join].
  rewrite <- !app_assoc. cbn [app].
  rewrite (read_field_then_comma (clean_field t) [] _ (or_introl eq_refl) Tl Tc Tq Ht).
  rewrite (read_field_then_comma (clean_field s) _ _ (or_intror eq_refl) Sl Sc Sq Hs).
  cbn [app].
  apply (read_field_then_end (clean_field m) [clean_field t; clean_field s] Ml Mc Mq Hm).
Qed.

Lemma read_header_row :
  process_line reader_reset (header_row ++ [LF])
  = Returns {| state := START_RECORD; field := []; fields := fieldnames |}.
Proof. vm_compute. reflexivity. Qed.

(** X1. The history view after a save: when each cleaned field is
    within the reader's field size limit, [history] shows one record,
    the saved one. *)
Theorem history_after_save (t s m : pystr) (w : World) :
  N.of_nat (List.length (clean_field t)) <= field_limit ->
  N.of_nat (List.length (clean_field s)) <= field_limit ->
  N.of_nat (List.length (clean_field m)) <= field_limit ->
  history (saved_world t s m w)
  = (Returns (render_template (py "history.html")
                (RecordsContext [saved_record t s m])),
     saved_world t s m w).
Proof.
  intros Ht Hs Hm. unfold history, bind, isfile, file_read, lift, ret, DictReader.
  cbn [negb csv_file saved_world]. rewrite saved_text_lines.
  cbn [read_rows]. rewrite read_header_row. cbn [state is_START_RECORD fields].
  rewrite (read_data_row t s m Ht Hs Hm). reflexivity.
Qed.

Lemma history_after_save_witness :
  N.of_nat (List.length (clean_field (py " Hi, my order is late. "))) <= field_limit
  /\ N.of_nat (List.length (clean_field (py "Late order, refunded."))) <= field_limit
  /\ N.of_nat (List.length (clean_field (py "Relieved and Positive"))) <= field_limit
  /\ history (saved_world (py " Hi, my order is late. ") (py "Late order, refunded.")
                (py "Relieved and Positive") Sample.fresh_world)
     = (Returns (render_template (py "history.html")
                   (RecordsContext [saved_record (py " Hi, my order is late. ")
                                      (py "Late order, refunded.")
                                      (py "Relieved and Positive")])),
        saved_world (py " Hi, my order is late. ") (py "Late order, refunded.")
          (py "Relieved and Positive") Sample.fresh_world).
Proof.
  split; [vm_compute; discriminate|]. split; [vm_compute; discriminate|].
  split; [vm_compute; discriminate|].
  apply (history_after_save (py " Hi, my order is late. ") (py "Late order, refunded.")
           (py "Relieved and Positive") Sample.fresh_world);
    vm_compute; discriminate.
Defined.

End ReadBack.

(* ================================================================== *)
(** ** Two runs of the page handler                                    *)
(* ================================================================== *)

Module Runs.

(** With a client that answers, the result is rendered, [save_to_csv]
    is called once and the file holds the header and the data row. *)
Example analyze_saves_a_good_result :
  let '(r, w) := analyze Sample.runtime (Some Sample.canned_client)
                   (Sample.form_post (py " Hi, my order is late. ")) Sample.fresh_world in
  r = Returns (render_template (py "result.html")
                 (ResultContext (PyStr (py "Hi, my order is late."))
                    (py "The customer reported a late delivery. The agent apologised.")
                    (py "Frustrated and Negative")))
  /\ List.length (save_log w) = 1%nat
  /\ csv_file w
     = Some (py "Transcript,Summary,Sentiment" ++ [CR; LF]
             ++ [DQUOTE] ++ py "Hi, my order is late." ++ [DQUOTE]
             ++ py ",The customer reported a late delivery. The agent apologised.,Frustrated and Negative"
             ++ [CR; LF]).
Proof. vm_compute. repeat split. Qed.

(** With a client that raises, the result is rendered with the two
    error texts, [save_to_csv] is not called and there is still no
    file. *)
Example analyze_skips_a_failed_result :
  let '(r, w) := analyze Sample.runtime (Some Sample.failing_client)
                   (Sample.form_post (py " Hi, my order is late. ")) Sample.fresh_world in
  r = Returns (render_template (py "result.html")
                 (ResultContext (PyStr (py "Hi, my order is late."))
                    (py "Error generating summary: Connection error.")
                    (py "Error analyzing sentiment: Connection error.")))
  /\ save_log w = []
  /\ csv_file w = None.
Proof. vm_compute. repeat split. Qed.

End Runs.

(* ================================================================== *)
(** ** More on the analysis pipeline                                   *)
(* ================================================================== *)

Module PipelineRuns.
Import Pipeline.

#[local] Opaque py summary_prompt sentiment_prompt clean_sentiment.





(** The run of [analyze_transcript] when the body raises [e] in the
    world [w1]: the except clause prints and returns the error texts. *)
Lemma except_clause (e : exn) (w1 : World) :
  bind (print (py "Error in analysis: " ++ exn_str e))
       (fun _ => ret (py "Error generating summary: " ++ exn_str e,
                      py "Error analyzing sentiment: " ++ exn_str e)) w1
  = (Returns (py "Error generating summary: " ++ exn_str e,
              py "Error analyzing sentiment: " ++ exn_str e),
     snd (print (py "Error in analysis: " ++ exn_str e) w1)).
Proof. reflexivity. Qed.



(** X4. A completion without choices, or whose first choice has no
    content, does not crash the analysis: the [IndexError] or the
    [AttributeError] is caught, both returned texts carry its message,
    and the sentiment request is not sent. *)
Theorem malformed_completion_is_caught (rt : PyRuntime) (groq : Groq)
    (transcript : pyvalue) (response : ChatCompletion) (w : World) :
  chat_completions_create groq (chat_log w) (summary_request rt transcript)
  = Returns response ->
  choices response = [] \/ (exists rest, choices response = None :: rest) ->
  exists msg w',
    analyze_transcript rt (Some groq) transcript w
    = (Returns (py "Error generating summary: " ++ msg,
                py "Error analyzing sentiment: " ++ msg), w')
    /\ (msg = py "list index out of range"
        \/ msg = py "'NoneType' object has no attribute 'strip'")
    /\ chat_log w' = chat_log w ++ [summary_request rt transcript].
Proof.
  intros E Hbad. unfold summary_request in *. unfold analyze_transcript, try_except.
  rewrite !bind_print, bind_create, !chat_log_print, E.
  destruct Hbad as [Hnil | (rest & Hnone)].
  - assert (R : forall w1, first_content_stripped response w1
                           = (Raises (Exn IndexError (py "list index out of range")), w1)).
    { intro w1. unfold first_content_stripped. now rewrite Hnil. }
    rewrite (@bind_raises _ _ _ _ _ _ _ (R _)), except_clause.
    do 2 eexists. split; [reflexivity|]. split; [now left | reflexivity].
  - assert (R : forall w1, first_content_stripped response w1
                           = (Raises (no_attribute PyNone (py "strip")), w1)).
    { intro w1. unfold first_content_stripped. now rewrite Hnone. }
    rewrite (@bind_raises _ _ _ _ _ _ _ (R _)), except_clause.
    do 2 eexists. split; [reflexivity|]. split; [right | reflexivity].
    with_strategy transparent [py] reflexivity.
Qed.

Lemma malformed_completion_is_caught_witness :
  chat_completions_create empty_client (chat_log Sample.fresh_world)
    (summary_request Sample.runtime (PyStr (py "My order is late.")))
  = Returns {| choices := [] |}
  /\ (choices {| choices := [] |} = []
      \/ (exists rest, choices {| choices := [] |} = None :: rest))
  /\ exists msg w',
       analyze_transcript Sample.runtime (Some empty_client)
         (PyStr (py "My order is late.")) Sample.fresh_world
       = (Returns (py "Error generating summary: " ++ msg,
                   py "Error analyzing sentiment: " ++ msg), w')
       /\ (msg = py "list index out of range"
           \/ msg = py "'NoneType' object has no attribute 'strip'")
       /\ chat_log w'
          = chat_log Sample.fresh_world
            ++ [summary_request Sample.runtime (PyStr (py "My order is late."))].
Proof.
  split; [reflexivity|]. split; [left; reflexivity|].
  apply (@malformed_completion_is_caught Sample.runtime empty_client
           (PyStr (py "My order is late.")) {| choices := [] |} Sample.fresh_world).
  - reflexivity.
  - left. reflexivity.
Defined.

(** X5. [analyze_transcript] never sends more than two requests, never
    the sentiment request without the summary request before it, and
    none at all without a client; in every case it leaves the CSV file,
    the flashed messages and the log of saves as they were. *)
Theorem analyze_transcript_requests (rt : PyRuntime) (client : option Groq)
    (transcript : pyvalue) (w : World) :
  let w' := snd (analyze_transcript rt client transcript w) in
  same_store w w'
  /\ match client with
     | None => chat_log w' = chat_log w
     | Some _ =>
         chat_log w' = chat_log w ++ [summary_request rt transcript]
         \/ chat_log w' = chat_log w ++ [summary_request rt transcript;
                                         sentiment_request rt transcript]
     end.
Proof.
  cbv zeta. split; [apply quiet_analyze_transcript|].
  unfold summary_request, sentiment_request. unfold analyze_transcript, try_except.
  destruct client as [groq|]; [|reflexivity].
  rewrite !bind_print, bind_create, !chat_log_print.
  destruct (chat_completions_create groq (chat_log w) _) as [response1|e1];
    [|rewrite except_clause; now left].
  match goal with |- context [bind (first_content_stripped ?r) ?k ?w1] =>
    destruct (first_content_stripped_cases r w1) as [(summary & Hs) | (e & Hs)];
    [rewrite (@bind_returns _ _ _ k _ _ _ Hs)
    |rewrite (@bind_raises _ _ _ k _ _ _ Hs), except_clause; now left]
  end.
  rewrite !bind_print, bind_create, !chat_log_print, chat_log_create, !chat_log_print.
  assert (Two : forall l : list ChatRequest, forall a b, (l ++ [a]) ++ [b] = l ++ [a; b]).
  { intros l a b. now rewrite <- app_assoc. }
  destruct (chat_completions_create groq _ _) as [response2|e2];
    [|rewrite except_clause; right; cbn [snd print create chat_log]; apply Two].
  match goal with |- context [bind (first_content_stripped ?r) ?k ?w1] =>
    destruct (first_content_stripped_cases r w1) as [(sentiment & Hs2) | (e & Hs2)];
    [rewrite (@bind_returns _ _ _ k _ _ _ Hs2)
    |rewrite (@bind_raises _ _ _ k _ _ _ Hs2), except_clause]
  end; right; cbn [snd print create chat_log bind ret]; apply Two.
Qed.

End PipelineRuns.

(* ================================================================== *)
(** ** More on the sentiment normalizer                                *)
(* ================================================================== *)

Module NormalizerShape.
Import TextFacts Normalizer Store.

Local Open Scope N_scope.

(** X6. The sentiment label [analyze_transcript] computes never holds
    a double quote, an apostrophe, a newline, a colon or a period, and
    has no whitespace at either end. *)
Theorem clean_sentiment_shape :
  forall s : pystr,
    contains DQUOTE (clean_sentiment s) = false
    /\ contains SQUOTE (clean_sentiment s) = false
    /\ contains LF (clean_sentiment s) = false
    /\ contains COLON (clean_sentiment s) = false
    /\ contains PERIOD (clean_sentiment s) = false
    /\ strip (clean_sentiment s) = clean_sentiment s.
Proof.
  intro s. rewrite clean_sentiment_spec_eq. apply normalize_spec_shape.
Qed.

Lemma replace_app (c : char) (new a b : pystr) :
  replace c new (a ++ b) = replace c new a ++ replace c new b.
Proof. unfold replace. apply flat_map_app. Qed.

Lemma first_part_app (c : char) (a b : pystr) :
  contains c a = false -> first_part (split c (a ++ c :: b)) = a.
Proof.
  induction a as [|x a IH]; intro H.
  - cbn [app]. rewrite first_part_cons, N.eqb_refl. reflexivity.
  - rewrite contains_cons in H. apply orb_false_elim in H as [Hx Ha].
    cbn [app]. rewrite first_part_cons, N.eqb_sym, Hx, (IH Ha). reflexivity.
Qed.

Lemma last_part_app (c : char) (a b : pystr) :
  contains c b = false -> last_part (split c (a ++ c :: b)) = b.
Proof.
  intro Hb. induction a as [|x a IH].
  - cbn [app]. rewrite last_part_cons, Hb, N.eqb_refl. reflexivity.
  - cbn [app]. rewrite last_part_cons, contains_app, contains_cons, N.eqb_refl.
    rewrite orb_true_r. exact IH.
Qed.

(** X7. A completion of the form [prefix: label. explanation], on one
    line, is normalized to the label with its surrounding whitespace
    removed, whatever the prefix, provided the label holds no quote,
    colon or period and the explanation no colon. *)
Theorem labelled_answer_is_extracted (prefix label explanation : pystr) :
  contains LF prefix = false ->
  contains DQUOTE label = false -> contains SQUOTE label = false ->
  contains LF label = false -> contains COLON label = false ->
  contains PERIOD label = false ->
  contains LF explanation = false -> contains COLON explanation = false ->
  clean_sentiment (prefix ++ [COLON] ++ label ++ [PERIOD] ++ explanation)
  = strip label.
Proof.
  intros Hp Hd Hs Hl Hc Hper Hel Hec. unfold clean_sentiment. cbv zeta.
  rewrite !replace_app.
  rewrite (replace_absent DQUOTE [] label Hd), (replace_absent SQUOTE [] label Hs).
  change (replace SQUOTE [] (replace DQUOTE [] [COLON])) with [COLON].
  change (replace SQUOTE [] (replace DQUOTE [] [PERIOD])) with [PERIOD].
  set (p := replace SQUOTE [] (replace DQUOTE [] prefix)).
  set (e := replace SQUOTE [] (replace DQUOTE [] explanation)).
  assert (Hp' : contains LF p = false)
    by (unfold p; now apply replace_nil_keeps_absent, replace_nil_keeps_absent).
  assert (Hel' : contains LF e = false)
    by (unfold e; now apply replace_nil_keeps_absent, replace_nil_keeps_absent).
  assert (Hec' : contains COLON e = false)
    by (unfold e; now apply replace_nil_keeps_absent, replace_nil_keeps_absent).
  change (p ++ [COLON] ++ label ++ [PERIOD] ++ e)
    with (p ++ COLON :: (label ++ PERIOD :: e)).
  set (x := p ++ COLON :: (label ++ PERIOD :: e)).
  assert (Hx : contains LF (strip x) = false).
  { apply strip_keeps_absent. unfold x.
    rewrite contains_app, contains_cons, contains_app, contains_cons, Hp', Hl, Hel'.
    reflexivity. }
  rewrite Hx, (keep_last_strip COLON x eq_refl).
  assert (Hcx : contains COLON x = true).
  { unfold x. rewrite contains_app, contains_cons, N.eqb_refl. apply orb_true_r. }
  rewrite Hcx. unfold x.
  rewrite (last_part_app COLON p (label ++ PERIOD :: e)).
  2:{ rewrite contains_app, contains_cons, Hc, Hec'. reflexivity. }
  rewrite (keep_first_strip PERIOD (label ++ PERIOD :: e) eq_refl).
  now rewrite (first_part_app PERIOD label e Hper).
Qed.

Lemma labelled_answer_is_extracted_witness :
  contains LF (py "Customer sentiment") = false
  /\ contains DQUOTE (py " Frustrated and Negative") = false
  /\ contains SQUOTE (py " Frustrated and Negative") = false
  /\ contains LF (py " Frustrated and Negative") = false
  /\ contains COLON (py " Frustrated and Negative") = false
  /\ contains PERIOD (py " Frustrated and Negative") = false
  /\ contains LF (py " The customer's issue was not resolved.") = false
  /\ contains COLON (py " The customer's issue was not resolved.") = false
  /\ clean_sentiment (py "Customer sentiment" ++ [COLON] ++ py " Frustrated and Negative"
                      ++ [PERIOD] ++ py " The customer's issue was not resolved.")
     = strip (py " Frustrated and Negative").
Proof.
  repeat (split; [reflexivity|]).
  apply (labelled_answer_is_extracted (py "Customer sentiment")
           (py " Frustrated and Negative")
           (py " The customer's issue was not resolved.")); reflexivity.
Defined.

End NormalizerShape.

(* ================================================================== *)
(** ** More on the result store                                        *)
(* ================================================================== *)

Module StoreRuns.
Import TextFacts Store.

Local Open Scope N_scope.

Lemma clean_field_idem (x : pystr) : clean_field (clean_field x) = clean_field x.
Proof.
  destruct (clean_field_shape x) as (Hl & Hc & Hq).
  unfold clean_field at 1.
  rewrite (replace_absent LF [SPACE] _ Hl), (replace_absent CR [SPACE] _ Hc),
    (replace_absent DQUOTE [] _ Hq).
  unfold clean_field. apply strip_idem.
Qed.

(** X8. Cleaning a field twice is cleaning it once, so saving the
    cleaned triple (what the history view shows) writes the same file as
    saving the original triple. *)
Theorem save_of_cleaned_triple :
  forall (t s m : pystr) (w : World),
    clean_field (clean_field t) = clean_field t
    /\ csv_file (snd (save_to_csv (PyStr (clean_field t)) (clean_field s)
                        (clean_field m) w))
       = csv_file (snd (save_to_csv (PyStr t) s m w)).
Proof.
  intros t s m w. split; [apply clean_field_idem|].
  rewrite !save_to_csv_run. unfold encodable_triple.
  rewrite !utf8_encodable_clean_field.
  destruct (utf8_encodable t && utf8_encodable s && utf8_encodable m);
    cbn [snd csv_file saved_world header_only_world]; [|reflexivity].
  unfold saved_text, data_row. now rewrite !clean_field_idem.
Qed.

(** X9. On a transcript that is not text, [save_to_csv] raises
    [AttributeError] before it opens the file: the file is neither
    created nor truncated. *)
Theorem save_to_csv_rejects_non_text (t : pyvalue) (s m : pystr) (w : World) :
  is_str t = false ->
  exists w',
    save_to_csv t s m w
    = (Raises (Exn AttributeError
                 (py "'" ++ type_name t ++ py "' object has no attribute 'replace'")), w')
    /\ csv_file w' = csv_file w.
Proof.
  intro H. exists (snd (log_save t s m w)). split; [|reflexivity].
  destruct t; try discriminate H; reflexivity.
Qed.

Lemma save_to_csv_rejects_non_text_witness :
  is_str (PyList [PyStr (py "Agent: hello"); PyStr (py "Customer: hi")]) = false
  /\ exists w',
       save_to_csv (PyList [PyStr (py "Agent: hello"); PyStr (py "Customer: hi")])
         (py "A greeting.") (py "Neutral and Cautious") Sample.fresh_world
       = (Raises (Exn AttributeError
                    (py "'"
                     ++ type_name (PyList [PyStr (py "Agent: hello"); PyStr (py "Customer: hi")])
                     ++ py "' object has no attribute 'replace'")), w')
       /\ csv_file w' = csv_file Sample.fresh_world.
Proof.
  split; [reflexivity|].
  apply (@save_to_csv_rejects_non_text
           (PyList [PyStr (py "Agent: hello"); PyStr (py "Customer: hi")])
           (py "A greeting.") (py "Neutral and Cautious") Sample.fresh_world).
  reflexivity.
Defined.

(** X10. After a save of three texts that UTF-8 can encode, GET
    /download-csv sends exactly the saved text, as an attachment, and
    changes nothing. *)
Theorem download_after_save :
  forall (t s m : pystr) (w : World),
    utf8_encodable t = true -> utf8_encodable s = true -> utf8_encodable m = true ->
    let w' := snd (save_to_csv (PyStr t) s m w) in
    download_csv w'
    = (Returns (send_file_response (py "call_analysis.csv") (py "text/csv") true
                  (py "call_analysis.csv") (saved_text t s m)), w').
Proof.
  intros t s m w Ht Hs Hm. cbv zeta.
  rewrite (save_to_csv_text t s m w (encodable_triple_true t s m Ht Hs Hm)).
  reflexivity.
Qed.

Lemma download_after_save_witness :
  utf8_encodable (py "My order, again") = true
  /\ utf8_encodable (py "The order is late.") = true
  /\ utf8_encodable (py "Impatient and Negative") = true
  /\ download_csv (snd (save_to_csv (PyStr (py "My order, again")) (py "The order is late.")
                          (py "Impatient and Negative") Sample.fresh_world))
     = (Returns (send_file_response (py "call_analysis.csv") (py "text/csv") true
                   (py "call_analysis.csv")
                   (saved_text (py "My order, again") (py "The order is late.")
                      (py "Impatient and Negative"))),
        snd (save_to_csv (PyStr (py "My order, again")) (py "The order is late.")
               (py "Impatient and Negative") Sample.fresh_world)).
Proof.
  split; [reflexivity|]. split; [reflexivity|]. split; [reflexivity|].
  apply (@download_after_save (py "My order, again") (py "The order is late.")
           (py "Impatient and Negative") Sample.fresh_world); reflexivity.
Defined.

(** X11. The no-data answer of GET /download-csv is given once: the
    first request creates the header-only file, so a second request
    sends that file as an attachment. *)
Theorem second_download_sends_header (w : World) :
  csv_file w = None ->
  let w1 := snd (download_csv w) in
  download_csv w1
  = (Returns (send_file_response (py "call_analysis.csv") (py "text/csv") true
                (py "call_analysis.csv")
                (py "Transcript,Summary,Sentiment" ++ [CR; LF])), w1).
Proof.
  intro H. destruct w as [file log fl out sv]. cbn [csv_file] in H. subst file.
  reflexivity.
Qed.

Lemma second_download_sends_header_witness :
  csv_file Sample.fresh_world = None
  /\ download_csv (snd (download_csv Sample.fresh_world))
     = (Returns (send_file_response (py "call_analysis.csv") (py "text/csv") true
                   (py "call_analysis.csv")
                   (py "Transcript,Summary,Sentiment" ++ [CR; LF])),
        snd (download_csv Sample.fresh_world)).
Proof.
  split; [reflexivity|].
  apply (second_download_sends_header Sample.fresh_world). reflexivity.
Defined.

(** X12. The history view is empty when there is no file, and stays
    empty after GET /download-csv has created the header-only file. *)
Theorem history_without_records (w : World) :
  csv_file w = None ->
  history w = (Returns (render_template (py "history.html") (RecordsContext [])), w)
  /\ history (snd (download_csv w))
     = (Returns (render_template (py "history.html") (RecordsContext [])),
        snd (download_csv w)).
Proof.
  intro H. destruct w as [file log fl out sv]. cbn [csv_file] in H. subst file.
  split; [reflexivity | vm_compute; reflexivity].
Qed.

Lemma history_without_records_witness :
  csv_file Sample.fresh_world = None
  /\ history Sample.fresh_world
     = (Returns (render_template (py "history.html") (RecordsContext [])),
        Sample.fresh_world)
  /\ history (snd (download_csv Sample.fresh_world))
     = (Returns (render_template (py "history.html") (RecordsContext [])),
        snd (download_csv Sample.fresh_world)).
Proof.
  split; [reflexivity|].
  apply (history_without_records Sample.fresh_world). reflexivity.
Defined.

(** The csv reader raises nothing but [csv.Error]. *)
Lemma parse_process_char_error (r : Reader) (i : input) (e : exn) :
  parse_process_char r i = Raises e -> exn_class_of e = CsvError.
Proof.
  unfold parse_process_char, start_field, parse_add_char.
  destruct (state r), i as [c|];
    repeat match goal with
           | |- context [if ?b then _ else _] => destruct b
           end;
    intro H; try discriminate H; now inversion H.
Qed.

Lemma process_line_error (line : pystr) :
  forall (r : Reader) (e : exn),
    process_line r line = Raises e -> exn_class_of e = CsvError.
Proof.
  induction line as [|c line IH]; intros r e; cbn [process_line].
  - apply parse_process_char_error.
  - destruct (parse_process_char r (Char c)) as [r'|e'] eqn:E.
    + apply IH.
    + intro H. inversion H. subst e'. now apply parse_process_char_error in E.
Qed.

Lemma read_rows_error (lines : list pystr) :
  forall (r : Reader) (e : exn),
    read_rows r lines = Raises e -> exn_class_of e = CsvError.
Proof.
  induction lines as [|line lines IH]; intros r e; cbn [read_rows].
  - destruct (field r); [destruct (is_IN_QUOTED_FIELD (state r))|]; discriminate.
  - destruct (process_line r line) as [r'|e'] eqn:E.
    + destruct (is_START_RECORD (state r')); [|apply IH].
      destruct (read_rows reader_reset lines) as [rows|e'] eqn:R; [discriminate|].
      intro H. inversion H. subst e'. now apply IH in R.
    + intro H. inversion H. subst e'. now apply process_line_error in E.
Qed.

(** X13. The history view only reads: it leaves the world as it was,
    whatever the file holds, and the only exception it can raise is the
    csv reader's [csv.Error]. *)
Theorem history_only_reads :
  forall w : World,
    snd (history w) = w
    /\ match fst (history w) with
       | Returns _ => True
       | Raises e => exn_class_of e = CsvError
       end.
Proof.
  intro w. unfold history, bind, isfile, file_read, lift, ret, DictReader.
  destruct (csv_file w) as [text|] eqn:F; cbn [negb]; [|now split].
  rewrite F.
  destruct (read_rows reader_reset (file_lines (universal_newlines text)))
    as [rows|e'] eqn:R; cbn [fst snd]; split; try reflexivity; try exact I.
  now apply read_rows_error in R.
Qed.

End StoreRuns.

(* ================================================================== *)
(** ** More on the page handler                                        *)
(* ================================================================== *)

Module PageRuns.
Import Pipeline Store Handlers Uploads PipelineRuns.

(** X14. An upload whose name is empty or does not end in [.json] is
    refused: the file is not read and nothing is analysed or saved. The
    handler calls [flash] with [Please upload a valid JSON file.], which
    raises [RuntimeError] because the application has no secret key, so
    no message is recorded and no redirect is answered. *)
Theorem upload_with_bad_name_refused (rt : PyRuntime) (client : option Groq)
    (request : HttpRequest) (file : FileStorage) (w : World) :
  lookup (py "json_file") (files request) = Some file ->
  negb (is_nil (filename file)) && endswith (filename file) (py ".json") = false ->
  analyze rt client request w = refused w.
Proof.
  intros Hfile Hname. unfold analyze. cbv zeta. rewrite Hfile, Hname. reflexivity.
Qed.

Lemma upload_with_bad_name_refused_witness :
  lookup (py "json_file") (files (upload_named (py "notes.txt") Sample.doc_empty_transcript))
  = Some {| filename := py "notes.txt"; read_decode := Returns Sample.doc_empty_transcript |}
  /\ negb (is_nil (py "notes.txt")) && endswith (py "notes.txt") (py ".json") = false
  /\ analyze Sample.runtime (Some Sample.canned_client)
       (upload_named (py "notes.txt") Sample.doc_empty_transcript) Sample.fresh_world
     = refused Sample.fresh_world.
Proof.
  split; [reflexivity|]. split; [reflexivity|].
  apply (@upload_with_bad_name_refused Sample.runtime (Some Sample.canned_client)
           (upload_named (py "notes.txt") Sample.doc_empty_transcript)
           {| filename := py "notes.txt"; read_decode := Returns Sample.doc_empty_transcript |}
           Sample.fresh_world); reflexivity.
Defined.

(** X15. When the request carries a [json_file] part, the typed text is
    never read: the handler does the same whatever the form holds. *)
Theorem upload_overrides_typed_text (rt : PyRuntime) (client : option Groq)
    (request : HttpRequest) (file : FileStorage)
    (form' : list (pystr * pystr)) (json' : outcome pyvalue) (w : World) :
  lookup (py "json_file") (files request) = Some file ->
  analyze rt client (with_form request form' json') w = analyze rt client request w.
Proof.
  intro Hfile. unfold analyze, with_form. cbn [files]. rewrite Hfile. reflexivity.
Qed.

Lemma upload_overrides_typed_text_witness :
  lookup (py "json_file") (files (upload_named (py "notes.txt") Sample.doc_empty_transcript))
  = Some {| filename := py "notes.txt"; read_decode := Returns Sample.doc_empty_transcript |}
  /\ analyze Sample.runtime (Some Sample.canned_client)
       (with_form (upload_named (py "notes.txt") Sample.doc_empty_transcript)
          [(py "transcript", py "another text")] (Returns PyNone)) Sample.fresh_world
     = analyze Sample.runtime (Some Sample.canned_client)
         (upload_named (py "notes.txt") Sample.doc_empty_transcript) Sample.fresh_world.
Proof.
  split; [reflexivity|].
  apply (@upload_overrides_typed_text Sample.runtime (Some Sample.canned_client)
           (upload_named (py "notes.txt") Sample.doc_empty_transcript)
           {| filename := py "notes.txt"; read_decode := Returns Sample.doc_empty_transcript |}
           [(py "transcript", py "another text")] (Returns PyNone) Sample.fresh_world).
  reflexivity.
Defined.

(** X16. Without a [json_file] part, a typed text that is missing,
    empty or made of whitespace is refused: nothing is analysed or
    saved. The handler calls [flash] with
    [Please enter a transcript or upload a JSON file to analyze.], which
    raises [RuntimeError] because the application has no secret key, so
    no message is recorded and no redirect is answered. *)
Theorem empty_text_refused (rt : PyRuntime) (client : option Groq)
    (request : HttpRequest) (w : World) :
  lookup (py "json_file") (files request) = None ->
  typed_text request = [] ->
  analyze rt client request w = refused w.
Proof.
  intros Hfile Htext. unfold analyze, typed_text in *. cbv zeta.
  rewrite Hfile, Htext. reflexivity.
Qed.

Lemma empty_text_refused_witness :
  lookup (py "json_file") (files (Sample.form_post (py "  "))) = None
  /\ typed_text (Sample.form_post (py "  ")) = []
  /\ analyze Sample.runtime (Some Sample.canned_client)
       (Sample.form_post (py "  ")) Sample.fresh_world
     = refused Sample.fresh_world.
Proof.
  split; [reflexivity|]. split; [reflexivity|].
  apply (@empty_text_refused Sample.runtime (Some Sample.canned_client)
           (Sample.form_post (py "  ")) Sample.fresh_world); reflexivity.
Defined.

(** X17. When the uploaded file cannot be decoded, or [json.loads]
    raises something other than a decoding error, the exception is
    caught, and lost: the except clause calls [flash] with its text
    after [Error reading JSON file: ], and that call raises
    [RuntimeError] because the application has no secret key. The
    handler raises this second error, whatever the first was; no
    message is recorded, and nothing is analysed or saved. *)
Theorem unreadable_upload_refused (rt : PyRuntime) (client : option Groq)
    (request : HttpRequest) (file : FileStorage) (e : exn) (w : World) :
  lookup (py "json_file") (files request) = Some file ->
  negb (is_nil (filename file)) && endswith (filename file) (py ".json") = true ->
  read_decode file = Raises e
  \/ (exists content, read_decode file = Returns content
                      /\ json_loads rt content = Raises e
                      /\ is_JSONDecodeError e = false) ->
  analyze rt client request w = refused w.
Proof.
  intros Hfile Hname Hbad. unfold analyze. cbv zeta. rewrite Hfile, Hname.
  unfold bind at 1, try_except. unfold bind at 1, lift at 1.
  destruct Hbad as [Hread | (content & Hread & Hloads & He)]; rewrite Hread.
  - reflexivity.
  - unfold bind at 1.
    assert (P : parse_json_transcript rt content w = (Raises e, w)).
    { unfold parse_json_transcript, try_except_only, bind, lift.
      now rewrite Hloads, He. }
    rewrite P. reflexivity.
Qed.

Lemma unreadable_upload_refused_witness :
  lookup (py "json_file") (files upload_undecodable)
  = Some {| filename := py "call.json";
            read_decode := Raises (Exn (OtherException (py "UnicodeDecodeError"))
                                       (py "'utf-8' codec can't decode byte 0xff in position 0: invalid start byte")) |}
  /\ negb (is_nil (py "call.json")) && endswith (py "call.json") (py ".json") = true
  /\ analyze Sample.runtime (Some Sample.canned_client) upload_undecodable Sample.fresh_world
     = refused Sample.fresh_world.
Proof.
  split; [reflexivity|]. split; [reflexivity|].
  apply (@unreadable_upload_refused Sample.runtime (Some Sample.canned_client)
           upload_undecodable
           {| filename := py "call.json";
              read_decode := Raises (Exn (OtherException (py "UnicodeDecodeError"))
                                         (py "'utf-8' codec can't decode byte 0xff in position 0: invalid start byte")) |}
           (Exn (OtherException (py "UnicodeDecodeError"))
                (py "'utf-8' codec can't decode byte 0xff in position 0: invalid start byte"))
           Sample.fresh_world).
  - reflexivity.
  - reflexivity.
  - left. reflexivity.
Defined.

End PageRuns.

(* ================================================================== *)
(** ** Complete runs of the two analysis handlers                      *)
(* ================================================================== *)

Module EndToEnd.
Import Pipeline Store Handlers PipelineRuns.

#[local] Opaque analyze_transcript save_to_csv py clean_sentiment.



End EndToEnd.

(* ================================================================== *)
(** ** What the two analysis handlers answer                           *)
(* ================================================================== *)

Module HandlerRuns.
Import Pipeline Store Handlers PipelineRuns EndToEnd.

Lemma analyze_transcript_no_client (rt : PyRuntime) (transcript : pyvalue) (w : World) :
  analyze_transcript rt None transcript w
  = (Returns (not_initialized, not_initialized), snd (print not_initialized w)).
Proof. reflexivity. Qed.

Lemma not_initialized_is_error : is_error not_initialized = true.
Proof. reflexivity. Qed.

#[local] Opaque analyze_transcript save_to_csv clean_sentiment not_initialized.





End HandlerRuns.

(* ================================================================== *)
(** ** What the API handler answers                                    *)
(* ================================================================== *)

Module ApiRuns.
Import Pipeline Store Handlers PipelineRuns EndToEnd HandlerRuns.

#[local] Opaque analyze_transcript save_to_csv clean_sentiment not_initialized.



(** X21. Without an inference client the API still answers a valid
    request with status 200 and the status text [success]: the failure
    shows only in the summary and the sentiment, which both read
    [Error: Groq client not initialized]; nothing is sent to the service
    and nothing is saved. *)
Theorem api_reports_success_without_client (rt : PyRuntime)
    (request : HttpRequest) (d : list (pystr * pyvalue)) (text : pystr) (w : World) :
  get_json request = Returns (PyDict d) ->
  dict_get (py "transcript") d = Some (PyStr text) ->
  strip text <> [] ->
  exists w',
    api_analyze rt None request w
    = (Returns (jsonify (api_body (strip text) not_initialized not_initialized) 200), w')
    /\ csv_file w' = csv_file w
    /\ save_log w' = save_log w
    /\ chat_log w' = chat_log w.
Proof.
  intros Hjson Hkey Hne. unfold api_analyze.
  unfold bind at 1, lift at 1. rewrite Hjson. unfold bind at 1.
  rewrite (dict_get_nonempty _ _ Hkey). cbn [negb contains_key].
  unfold bind at 1, lift at 1. rewrite dict_has_get, Hkey. unfold ret at 1.
  cbn [negb getitem]. rewrite Hkey. unfold bind at 1, lift at 1.
  unfold bind at 1, lift at 1. cbn [method_strip].
  destruct (strip text) as [|c rest]; [congruence|]. cbn [is_nil].
  rewrite (@bind_returns _ _ _ _ _ _ _ (analyze_transcript_no_client rt _ w)).
  cbv iota beta. fold (is_error not_initialized). rewrite not_initialized_is_error.
  cbn [orb negb]. rewrite bind_print.
  eexists. split; [reflexivity|]. now repeat split.
Qed.

Lemma api_reports_success_without_client_witness :
  get_json (Sample.api_post (PyDict [(py "transcript", PyStr (py " My order is late. "))]))
  = Returns (PyDict [(py "transcript", PyStr (py " My order is late. "))])
  /\ dict_get (py "transcript") [(py "transcript", PyStr (py " My order is late. "))]
     = Some (PyStr (py " My order is late. "))
  /\ strip (py " My order is late. ") <> []
  /\ exists w',
       api_analyze Sample.runtime None
         (Sample.api_post (PyDict [(py "transcript", PyStr (py " My order is late. "))]))
         Sample.fresh_world
       = (Returns (jsonify (api_body (strip (py " My order is late. "))
                              not_initialized not_initialized) 200), w')
       /\ csv_file w' = csv_file Sample.fresh_world
       /\ save_log w' = save_log Sample.fresh_world
       /\ chat_log w' = chat_log Sample.fresh_world.
Proof.
  split; [reflexivity|]. split; [reflexivity|]. split; [vm_compute; discriminate|].
  apply (@api_reports_success_without_client Sample.runtime
           (Sample.api_post (PyDict [(py "transcript", PyStr (py " My order is late. "))]))
           [(py "transcript", PyStr (py " My order is late. "))]
           (py " My order is late. ") Sample.fresh_world).
  - reflexivity.
  - reflexivity.
  - vm_compute. discriminate.
Defined.

(** X22. A falsy JSON body ([null], [false], 0, an empty string, array
    or object) is answered with status 400 and the error
    [No transcript provided]; the world is left as it was. *)
Theorem api_rejects_falsy_body (rt : PyRuntime) (client : option Groq)
    (request : HttpRequest) (data : pyvalue) (w : World) :
  get_json request = Returns data ->
  truthy data = false ->
  api_analyze rt client request w
  = (Returns (jsonify [(py "error", PyStr (py "No transcript provided"))] 400), w).
Proof.
  intros Hjson Hfalsy. unfold api_analyze, bind, lift. now rewrite Hjson, Hfalsy.
Qed.

Lemma api_rejects_falsy_body_witness :
  get_json (Sample.api_post PyNone) = Returns PyNone
  /\ truthy PyNone = false
  /\ api_analyze Sample.runtime (Some Sample.canned_client) (Sample.api_post PyNone)
       Sample.fresh_world
     = (Returns (jsonify [(py "error", PyStr (py "No transcript provided"))] 400),
        Sample.fresh_world).
Proof.
  split; [reflexivity|]. split; [reflexivity|].
  apply (@api_rejects_falsy_body Sample.runtime (Some Sample.canned_client)
           (Sample.api_post PyNone) PyNone Sample.fresh_world); reflexivity.
Defined.

(** X23. A JSON body that is not an object is never analysed: the
    handler answers 400 with [No transcript provided], or raises
    [TypeError] (at the membership test for a number or [true], at the
    subscript for an array or a string that holds [transcript]); in
    both cases the world is left as it was. *)
Theorem api_never_analyses_non_object (rt : PyRuntime) (client : option Groq)
    (request : HttpRequest) (data : pyvalue) (w : World) :
  get_json request = Returns data ->
  (forall d, data <> PyDict d) ->
  api_analyze rt client request w
  = (Returns (jsonify [(py "error", PyStr (py "No transcript provided"))] 400), w)
  \/ exists msg, api_analyze rt client request w = (Raises (Exn TypeError msg), w).
Proof.
  intros Hjson Hobj. unfold api_analyze, bind, lift, ret. rewrite Hjson.
  destruct data as [|b|z|f|s|items|d]; [| | | | | |now destruct (Hobj d)].
  - left. reflexivity.
  - destruct b; [right | left; reflexivity].
    exists (py "argument of type '" ++ type_name (PyBool true) ++ py "' is not iterable").
    reflexivity.
  - cbn [truthy]. destruct (negb (z =? 0)%Z); [right | left; reflexivity].
    exists (py "argument of type '" ++ type_name (PyInt z) ++ py "' is not iterable").
    reflexivity.
  - cbn [truthy]. destruct (negb (PrimFloat.eqb f 0)); [right | left; reflexivity].
    exists (py "argument of type '" ++ type_name (PyFloat f) ++ py "' is not iterable").
    reflexivity.
  - destruct s as [|c s]; [left; reflexivity|]. cbn [truthy negb contains_key].
    destruct (substring_in (py "transcript") (c :: s)); cbn [negb];
      [right | left; reflexivity].
    exists (py "string indices must be integers, not 'str'"). reflexivity.
  - destruct items as [|x items]; [left; reflexivity|]. cbn [truthy negb contains_key].
    match goal with |- context [existsb ?p ?l] => destruct (existsb p l) end;
      cbn [negb]; [right | left; reflexivity].
    exists (py "list indices must be integers or slices, not str"). reflexivity.
Qed.

Lemma api_never_analyses_non_object_witness :
  get_json (Sample.api_post (PyList [PyStr (py "transcript")]))
  = Returns (PyList [PyStr (py "transcript")])
  /\ (forall d, PyList [PyStr (py "transcript")] <> PyDict d)
  /\ (api_analyze Sample.runtime (Some Sample.canned_client)
        (Sample.api_post (PyList [PyStr (py "transcript")])) Sample.fresh_world
      = (Returns (jsonify [(py "error", PyStr (py "No transcript provided"))] 400),
         Sample.fresh_world)
      \/ exists msg,
           api_analyze Sample.runtime (Some Sample.canned_client)
             (Sample.api_post (PyList [PyStr (py "transcript")])) Sample.fresh_world
           = (Raises (Exn TypeError msg), Sample.fresh_world)).
Proof.
  split; [reflexivity|]. split; [discriminate|].
  apply (@api_never_analyses_non_object Sample.runtime (Some Sample.canned_client)
           (Sample.api_post (PyList [PyStr (py "transcript")]))
           (PyList [PyStr (py "transcript")]) Sample.fresh_world);
    [reflexivity | discriminate].
Defined.

End ApiRuns.

(* ================================================================== *)
(** ** More on uploaded JSON documents                                 *)
(* ================================================================== *)

Module UploadRuns.
Import Handlers Uploads.

(** X24. For a mapping, the key [transcript] wins over [conversation],
    which wins over [dialogue], which wins over [text], wherever the
    keys stand in the document; the value is returned as it is. With
    none of the four keys the result is the text of the whole mapping. *)
Theorem mapping_keys_by_priority (rt : PyRuntime) (content : pystr)
    (d : list (pystr * pyvalue)) (w : World) :
  json_loads rt content = Returns (PyDict d) ->
  exists r,
    parse_json_transcript rt content w = (Returns r, w)
    /\ (forall v, dict_get (py "transcript") d = Some v -> r = v)
    /\ (dict_get (py "transcript") d = None ->
        forall v, dict_get (py "conversation") d = Some v -> r = v)
    /\ (dict_get (py "transcript") d = None ->
        dict_get (py "conversation") d = None ->
        forall v, dict_get (py "dialogue") d = Some v -> r = v)
    /\ (dict_get (py "transcript") d = None ->
        dict_get (py "conversation") d = None ->
        dict_get (py "dialogue") d = None ->
        forall v, dict_get (py "text") d = Some v -> r = v)
    /\ (dict_get (py "transcript") d = None ->
        dict_get (py "conversation") d = None ->
        dict_get (py "dialogue") d = None ->
        dict_get (py "text") d = None ->
        r = PyStr (py_str rt (PyDict d))).
Proof.
  intro H. eexists. split; [apply (parse_json_transcript_mapping rt content w H)|].
  cbn [first_present priority_keys].
  destruct (dict_get (py "transcript") d) as [v1|];
    [repeat split; intros; congruence|].
  destruct (dict_get (py "conversation") d) as [v2|];
    [repeat split; intros; congruence|].
  destruct (dict_get (py "dialogue") d) as [v3|];
    [repeat split; intros; congruence|].
  destruct (dict_get (py "text") d) as [v4|];
    repeat split; intros; congruence.
Qed.

Lemma mapping_keys_by_priority_witness :
  json_loads Sample.runtime
    (py "{" ++ Sample.q "text" ++ py ": " ++ Sample.q "from text" ++ py ", "
     ++ Sample.q "transcript" ++ py ": " ++ Sample.q "from transcript" ++ py "}")
  = Returns (PyDict [(py "text", PyStr (py "from text"));
                     (py "transcript", PyStr (py "from transcript"))])
  /\ parse_json_transcript Sample.runtime
       (py "{" ++ Sample.q "text" ++ py ": " ++ Sample.q "from text" ++ py ", "
        ++ Sample.q "transcript" ++ py ": " ++ Sample.q "from transcript" ++ py "}")
       Sample.fresh_world
     = (Returns (PyStr (py "from transcript")), Sample.fresh_world).
Proof.
  split; [vm_compute; reflexivity|].
  destruct (@mapping_keys_by_priority Sample.runtime
              (py "{" ++ Sample.q "text" ++ py ": " ++ Sample.q "from text" ++ py ", "
               ++ Sample.q "transcript" ++ py ": " ++ Sample.q "from transcript" ++ py "}")
              [(py "text", PyStr (py "from text"));
               (py "transcript", PyStr (py "from transcript"))]
              Sample.fresh_world) as (r & Hrun & Hfirst & _).
  - vm_compute. reflexivity.
  - rewrite Hrun. f_equal. f_equal. apply Hfirst. reflexivity.
Defined.

(** X25. For an array of strings the transcript is the strings joined
    by single spaces, in the order of the array. *)
Theorem array_of_strings_joined (rt : PyRuntime) (content : pystr)
    (strs : list pystr) (w : World) :
  json_loads rt content = Returns (PyList (map PyStr strs)) ->
  parse_json_transcript rt content w = (Returns (PyStr (join [SPACE] strs)), w).
Proof.
  intro H. rewrite (parse_json_transcript_array rt content w H), map_map.
  cbn [py_str]. now rewrite map_id.
Qed.

Lemma array_of_strings_joined_witness :
  json_loads Sample.runtime
    (py "[" ++ Sample.q "Agent: hello" ++ py ", " ++ Sample.q "Customer: my order is late"
     ++ py "]")
  = Returns (PyList (map PyStr [py "Agent: hello"; py "Customer: my order is late"]))
  /\ parse_json_transcript Sample.runtime
       (py "[" ++ Sample.q "Agent: hello" ++ py ", " ++ Sample.q "Customer: my order is late"
        ++ py "]") Sample.fresh_world
     = (Returns (PyStr (join [SPACE] [py "Agent: hello"; py "Customer: my order is late"])),
        Sample.fresh_world).
Proof.
  split; [vm_compute; reflexivity|].
  apply (@array_of_strings_joined Sample.runtime
           (py "[" ++ Sample.q "Agent: hello" ++ py ", "
            ++ Sample.q "Customer: my order is late" ++ py "]")
           [py "Agent: hello"; py "Customer: my order is late"] Sample.fresh_world).
  vm_compute. reflexivity.
Defined.

(** X26. [parse_json_transcript] changes nothing in the world, and
    raises only what [json.loads] raised, and never a decoding error:
    looking up a key it has just found cannot fail. *)
Theorem parse_json_transcript_failures :
  forall (rt : PyRuntime) (content : pystr) (w : World),
    snd (parse_json_transcript rt content w) = w
    /\ match fst (parse_json_transcript rt content w) with
       | Returns _ => True
       | Raises e => json_loads rt content = Raises e /\ is_JSONDecodeError e = false
       end.
Proof.
  intros rt content w. split; [apply parse_json_transcript_pure|].
  unfold parse_json_transcript, try_except_only, bind, lift, ret.
  destruct (json_loads rt content) as [data|e0]; cbn [fst].
  - destruct data; try exact I.
    rewrite !dict_has_get. cbn [getitem].
    destruct (dict_get (py "transcript") items); [exact I|].
    destruct (dict_get (py "conversation") items); [exact I|].
    destruct (dict_get (py "dialogue") items); [exact I|].
    destruct (dict_get (py "text") items); exact I.
  - destruct (is_JSONDecodeError e0) eqn:He; cbn [fst]; [exact I | now split].
Qed.

(** X27. An uploaded array whose elements join to the empty text (the
    empty array, for one) is refused like a malformed document: the
    handler calls [flash] with
    [Invalid JSON format. Please check your file.], which raises
    [RuntimeError] because the application has no secret key; the
    except clause catches it and calls [flash] again, and that error
    leaves the handler. Nothing is analysed or saved. *)
Theorem empty_array_upload_refused (rt : PyRuntime) (client : option Groq)
    (request : HttpRequest) (file : FileStorage) (content : pystr)
    (items : list pyvalue) (w : World) :
  lookup (py "json_file") (files request) = Some file ->
  negb (is_nil (filename file)) && endswith (filename file) (py ".json") = true ->
  read_decode file = Returns content ->
  json_loads rt content = Returns (PyList items) ->
  join [SPACE] (map (py_str rt) items) = [] ->
  analyze rt client request w = refused w.
Proof.
  intros Hfile Hname Hread Hloads Hempty. unfold analyze. cbv zeta.
  rewrite Hfile, Hname. unfold bind at 1, try_except.
  unfold bind at 1, lift at 1. rewrite Hread. unfold bind at 1.
  rewrite (parse_json_transcript_array rt content w Hloads), Hempty. reflexivity.
Qed.

Lemma empty_array_upload_refused_witness :
  lookup (py "json_file") (files (Sample.upload (py "[]")))
  = Some {| filename := py "call.json"; read_decode := Returns (py "[]") |}
  /\ json_loads Sample.runtime (py "[]") = Returns (PyList [])
  /\ analyze Sample.runtime (Some Sample.canned_client) (Sample.upload (py "[]"))
       Sample.fresh_world
     = refused Sample.fresh_world.
Proof.
  split; [reflexivity|]. split; [vm_compute; reflexivity|].
  apply (@empty_array_upload_refused Sample.runtime (Some Sample.canned_client)
           (Sample.upload (py "[]"))
           {| filename := py "call.json"; read_decode := Returns (py "[]") |}
           (py "[]") [] Sample.fresh_world).
  - reflexivity.
  - reflexivity.
  - reflexivity.
  - vm_compute. reflexivity.
  - reflexivity.
Defined.

End UploadRuns.

(* ================================================================== *)
(** ** The client at start-up                                          *)
(* ================================================================== *)

Module StartupFacts.
Import TextFacts.

Local Open Scope N_scope.


Lemma lstrip_chars_head (chars s : pystr) (c : char) (t : pystr) :
  lstrip_chars chars s = c :: t -> contains c chars = false.
Proof.
  induction s as [|x s IH]; cbn [lstrip_chars]; [discriminate|].
  destruct (contains x chars) eqn:E; [exact IH|].
  intro H. inversion H. now subst.
Qed.

Lemma rstrip_chars_cons (chars : pystr) (c : char) (s : pystr) :
  contains c chars = false -> rstrip_chars chars (c :: s) = c :: rstrip_chars chars s.
Proof.
  intro H. cbn [rstrip_chars]. destruct (rstrip_chars chars s); [now rewrite H | reflexivity].
Qed.

Lemma rstrip_chars_last (chars s : pystr) :
  forall (front : pystr) (c : char),
    rstrip_chars chars s = front ++ [c] -> contains c chars = false.
Proof.
  induction s as [|x s IH]; intros front c; cbn [rstrip_chars].
  - destruct front; discriminate.
  - destruct (rstrip_chars chars s) as [|y r].
    + destruct (contains x chars) eqn:E; [destruct front; discriminate|].
      destruct front as [|a [|b front]]; intro H; inversion H; now subst.
    + destruct front as [|a front]; cbn [app]; intro H.
      * discriminate H.
      * injection H as _ Htail. now apply (IH front c).
Qed.

(** X29. The key handed to the constructor neither starts nor ends with
    an apostrophe or a double quote (the default 0 stands for the first
    and the last character of an empty key). *)
Theorem trimmed_key_has_no_outer_quote :
  forall api_key : pystr,
    let k := trimmed_key api_key in
    hd 0 k <> SQUOTE /\ hd 0 k <> DQUOTE
    /\ last k 0 <> SQUOTE /\ last k 0 <> DQUOTE.
Proof.
  intro api_key. cbv zeta.
  assert (Hq : forall c, contains c [SQUOTE; DQUOTE] = false ->
                         c <> SQUOTE /\ c <> DQUOTE).
  { intros c H. split; intros ->; discriminate H. }
  assert (Hhead : hd 0 (trimmed_key api_key) <> SQUOTE
                  /\ hd 0 (trimmed_key api_key) <> DQUOTE).
  { unfold trimmed_key, strip_chars.
    destruct (lstrip_chars [SQUOTE; DQUOTE] (strip api_key)) as [|x t] eqn:E;
      [split; discriminate|].
    pose proof (@lstrip_chars_head _ _ _ _ E) as Hx.
    rewrite (@rstrip_chars_cons _ _ t Hx). apply Hq, Hx. }
  assert (Hlast : last (trimmed_key api_key) 0 <> SQUOTE
                  /\ last (trimmed_key api_key) 0 <> DQUOTE).
  { destruct (trimmed_key api_key) as [|x t] eqn:E; [split; discriminate|].
    rewrite <- E. apply Hq.
    assert (Hne : trimmed_key api_key <> []) by (rewrite E; discriminate).
    pose proof (app_removelast_last 0 Hne) as Hsplit.
    exact (@rstrip_chars_last [SQUOTE; DQUOTE]
             (lstrip_chars [SQUOTE; DQUOTE] (strip api_key)) _ _ Hsplit). }
  tauto.
Qed.

End StartupFacts.
